(** * SmtcBridge: a shallow embedding of [smtc_bridge.cpp]

    The bridge is a flat C surface over the Windows System Media Transport
    Controls.  Its whole state is a handful of file-level globals guarded by
    one [std::mutex]; every exported function is a [lock_guard] around a
    guard on [g_initialized] followed by a few WinRT calls inside a
    [try]/[catch].

    The embedding keeps that shape.  The globals, the operating-system
    object the three WinRT handles point to, and the environment (what the
    native layer answers to the next calls) form one [State]; exported
    functions are computations in a small monad [M] whose outcome is a
    normal return, a C++ exception in flight, or a thread that blocks on a
    mutex it already owns. *)

From Stdlib Require Import ZArith List String Bool Lia.
From Stdlib.Strings Require Import Byte.
Import ListNotations.
Open Scope string_scope.
Open Scope list_scope.
Open Scope Z_scope.

(** ** Public enumerations ([smtc_bridge.h])

    C enumerations travel as integers: a caller can pass any value, so the
    public types are [Z] with the header's named constants. *)

Definition SmtcPlaybackStatus := Z.
Definition SMTC_PLAYBACK_CLOSED : SmtcPlaybackStatus := 0.
Definition SMTC_PLAYBACK_STOPPED : SmtcPlaybackStatus := 1.
Definition SMTC_PLAYBACK_PLAYING : SmtcPlaybackStatus := 2.
Definition SMTC_PLAYBACK_PAUSED : SmtcPlaybackStatus := 3.
Definition SMTC_PLAYBACK_CHANGING : SmtcPlaybackStatus := 4.

Definition SmtcButtonType := Z.
Definition SMTC_BUTTON_PLAY : SmtcButtonType := 0.
Definition SMTC_BUTTON_PAUSE : SmtcButtonType := 1.
Definition SMTC_BUTTON_STOP : SmtcButtonType := 2.
Definition SMTC_BUTTON_RECORD : SmtcButtonType := 3.
Definition SMTC_BUTTON_FAST_FORWARD : SmtcButtonType := 4.
Definition SMTC_BUTTON_REWIND : SmtcButtonType := 5.
Definition SMTC_BUTTON_NEXT : SmtcButtonType := 6.
Definition SMTC_BUTTON_PREVIOUS : SmtcButtonType := 7.
Definition SMTC_BUTTON_CHANNEL_UP : SmtcButtonType := 8.
Definition SMTC_BUTTON_CHANNEL_DOWN : SmtcButtonType := 9.

Definition SmtcMediaType := Z.
Definition SMTC_MEDIA_UNKNOWN : SmtcMediaType := 0.
Definition SMTC_MEDIA_MUSIC : SmtcMediaType := 1.
Definition SMTC_MEDIA_VIDEO : SmtcMediaType := 2.
Definition SMTC_MEDIA_IMAGE : SmtcMediaType := 3.

(** A callback is a function pointer: [None] is [nullptr], [Some a] the
    function at address [a]. *)
Definition SmtcButtonPressedCallback := option nat.
Definition SmtcPositionChangeRequestedCallback := option nat.

(** ** The native layer (namespace [wm] and friends)

    The source names the WinRT enumerators symbolically; an extra
    constructor stands for any value the [default:] labels would meet. *)

Module wm.

Inductive MediaPlaybackType := Unknown | Music | Video | Image.

Inductive MediaPlaybackStatus :=
| Closed | Changing | Stopped | Playing | Paused
| OtherStatus (raw : Z).

Inductive SystemMediaTransportControlsButton :=
| Play | Pause | Stop | Record_ | FastForward | Rewind | Next | Previous
| ChannelUp | ChannelDown
| OtherButton (raw : Z).

End wm.

(** What a thumbnail refers to: [CreateFromUri] or [CreateFromStream]. *)
Inductive RandomAccessStreamReference :=
| FromUri (uri : string)
| FromStream (bytes : list byte).

Record MusicDisplayProperties := mkMusic {
  Title : string;
  Artist : string;
  AlbumTitle : string
}.

Record DisplayUpdater := mkDisplay {
  Type_ : wm.MediaPlaybackType;
  MusicProperties : MusicDisplayProperties;
  Thumbnail : option RandomAccessStreamReference
}.

(** The properties of the native timeline object are [TimeSpan] values:
    signed 64-bit counts of 100 ns ticks. *)
Record TimelineProperties := mkTimeline {
  StartTime : Z;
  EndTime : Z;
  Position : Z;
  MinSeekTime : Z;
  MaxSeekTime : Z
}.

Record Buttons := mkButtons {
  IsPlayEnabled : bool;
  IsPauseEnabled : bool;
  IsStopEnabled : bool;
  IsNextEnabled : bool;
  IsPreviousEnabled : bool;
  IsFastForwardEnabled : bool;
  IsRewindEnabled : bool
}.

(** The [MediaPlayer] object with the transport controls and the display
    updater it owns.  [g_mediaPlayer], [g_smtc] and [g_displayUpdater] are
    three references into this one object, so it is stored once. *)
Record MediaPlayer := mkPlayer {
  CommandManager_IsEnabled : bool;
  IsClosed : bool;
  IsEnabled : bool;
  buttons : Buttons;
  PlaybackStatus : wm.MediaPlaybackStatus;
  ButtonPressed : list Z;          (* tokens of the registered handlers *)
  Timeline : TimelineProperties;
  Display : DisplayUpdater;        (* staged by the setters *)
  Shown : DisplayUpdater           (* what [Update] last flushed *)
}.

(** Defaults of a freshly activated player.  They belong to the platform,
    not to this repository; no statement below depends on them. *)
Definition fresh_display : DisplayUpdater :=
  mkDisplay wm.Unknown (mkMusic "" "" "") None.

Definition fresh_player : MediaPlayer :=
  mkPlayer true false false
           (mkButtons false false false false false false false)
           wm.Closed [] (mkTimeline 0 0 0 0 0) fresh_display fresh_display.

(** C++ exceptions the code distinguishes by type. *)
Inductive exn :=
| hresult_error (message : string)     (* winrt::hresult_error *)
| std_exception (what : string).       (* std::exception *)

(** The answer of the native layer to one WinRT call: it succeeds, it
    hands back a null reference, or it throws.  [Null] is read only where
    the source tests the returned reference ([if (!g_smtc)]); everywhere
    else it counts as [Ok]. *)
Inductive Reply := Ok | Null | Throw (e : exn).

(** ** Module state *)

Record State := mkState {
  (* the globals of smtc_bridge.cpp *)
  g_mutex : bool;                       (* true: locked by the running call *)
  g_initialized : bool;
  g_comInitialized : bool;
  g_mediaPlayer : bool;                 (* false: nullptr *)
  g_smtc : bool;
  g_displayUpdater : bool;
  g_lastError : string;
  g_buttonCallback : SmtcButtonPressedCallback;
  g_positionCallback : SmtcPositionChangeRequestedCallback;
  g_buttonPressedToken : Z;
  (* the world outside the module *)
  player : MediaPlayer;                 (* the object behind the handles *)
  com_count : Z;                        (* CoInitializeEx minus CoUninitialize *)
  replies : list Reply;                 (* answers to the next WinRT calls *)
  hresults : list Z;                    (* answers to the next CoInitializeEx *)
  callback_log : list (nat * SmtcButtonType)  (* callback invocations so far *)
}.

Definition set_g_mutex v s :=
  mkState v (g_initialized s) (g_comInitialized s) (g_mediaPlayer s) (g_smtc s)
          (g_displayUpdater s) (g_lastError s) (g_buttonCallback s)
          (g_positionCallback s) (g_buttonPressedToken s) (player s)
          (com_count s) (replies s) (hresults s) (callback_log s).
Definition set_g_initialized v s :=
  mkState (g_mutex s) v (g_comInitialized s) (g_mediaPlayer s) (g_smtc s)
          (g_displayUpdater s) (g_lastError s) (g_buttonCallback s)
          (g_positionCallback s) (g_buttonPressedToken s) (player s)
          (com_count s) (replies s) (hresults s) (callback_log s).
Definition set_g_comInitialized v s :=
  mkState (g_mutex s) (g_initialized s) v (g_mediaPlayer s) (g_smtc s)
          (g_displayUpdater s) (g_lastError s) (g_buttonCallback s)
          (g_positionCallback s) (g_buttonPressedToken s) (player s)
          (com_count s) (replies s) (hresults s) (callback_log s).
Definition set_g_mediaPlayer v s :=
  mkState (g_mutex s) (g_initialized s) (g_comInitialized s) v (g_smtc s)
          (g_displayUpdater s) (g_lastError s) (g_buttonCallback s)
          (g_positionCallback s) (g_buttonPressedToken s) (player s)
          (com_count s) (replies s) (hresults s) (callback_log s).
Definition set_g_smtc v s :=
  mkState (g_mutex s) (g_initialized s) (g_comInitialized s) (g_mediaPlayer s) v
          (g_displayUpdater s) (g_lastError s) (g_buttonCallback s)
          (g_positionCallback s) (g_buttonPressedToken s) (player s)
          (com_count s) (replies s) (hresults s) (callback_log s).
Definition set_g_displayUpdater v s :=
  mkState (g_mutex s) (g_initialized s) (g_comInitialized s) (g_mediaPlayer s)
          (g_smtc s) v (g_lastError s) (g_buttonCallback s)
          (g_positionCallback s) (g_buttonPressedToken s) (player s)
          (com_count s) (replies s) (hresults s) (callback_log s).
Definition set_g_lastError v s :=
  mkState (g_mutex s) (g_initialized s) (g_comInitialized s) (g_mediaPlayer s)
          (g_smtc s) (g_displayUpdater s) v (g_buttonCallback s)
          (g_positionCallback s) (g_buttonPressedToken s) (player s)
          (com_count s) (replies s) (hresults s) (callback_log s).
Definition set_g_buttonCallback v s :=
  mkState (g_mutex s) (g_initialized s) (g_comInitialized s) (g_mediaPlayer s)
          (g_smtc s) (g_displayUpdater s) (g_lastError s) v
          (g_positionCallback s) (g_buttonPressedToken s) (player s)
          (com_count s) (replies s) (hresults s) (callback_log s).
Definition set_g_positionCallback v s :=
  mkState (g_mutex s) (g_initialized s) (g_comInitialized s) (g_mediaPlayer s)
          (g_smtc s) (g_displayUpdater s) (g_lastError s) (g_buttonCallback s)
          v (g_buttonPressedToken s) (player s)
          (com_count s) (replies s) (hresults s) (callback_log s).
Definition set_g_buttonPressedToken v s :=
  mkState (g_mutex s) (g_initialized s) (g_comInitialized s) (g_mediaPlayer s)
          (g_smtc s) (g_displayUpdater s) (g_lastError s) (g_buttonCallback s)
          (g_positionCallback s) v (player s)
          (com_count s) (replies s) (hresults s) (callback_log s).
Definition set_player v s :=
  mkState (g_mutex s) (g_initialized s) (g_comInitialized s) (g_mediaPlayer s)
          (g_smtc s) (g_displayUpdater s) (g_lastError s) (g_buttonCallback s)
          (g_positionCallback s) (g_buttonPressedToken s) v
          (com_count s) (replies s) (hresults s) (callback_log s).
Definition set_com_count v s :=
  mkState (g_mutex s) (g_initialized s) (g_comInitialized s) (g_mediaPlayer s)
          (g_smtc s) (g_displayUpdater s) (g_lastError s) (g_buttonCallback s)
          (g_positionCallback s) (g_buttonPressedToken s) (player s)
          v (replies s) (hresults s) (callback_log s).
Definition set_replies v s :=
  mkState (g_mutex s) (g_initialized s) (g_comInitialized s) (g_mediaPlayer s)
          (g_smtc s) (g_displayUpdater s) (g_lastError s) (g_buttonCallback s)
          (g_positionCallback s) (g_buttonPressedToken s) (player s)
          (com_count s) v (hresults s) (callback_log s).
Definition set_hresults v s :=
  mkState (g_mutex s) (g_initialized s) (g_comInitialized s) (g_mediaPlayer s)
          (g_smtc s) (g_displayUpdater s) (g_lastError s) (g_buttonCallback s)
          (g_positionCallback s) (g_buttonPressedToken s) (player s)
          (com_count s) (replies s) v (callback_log s).
Definition set_callback_log v s :=
  mkState (g_mutex s) (g_initialized s) (g_comInitialized s) (g_mediaPlayer s)
          (g_smtc s) (g_displayUpdater s) (g_lastError s) (g_buttonCallback s)
          (g_positionCallback s) (g_buttonPressedToken s) (player s)
          (com_count s) (replies s) (hresults s) v.

(** The static initialisers of the globals, in an environment that will
    answer [rs] to WinRT calls and [hrs] to [CoInitializeEx]. *)
Definition initial_state (rs : list Reply) (hrs : list Z) : State :=
  mkState false false false false false false "" None None 0
          fresh_player 0 rs hrs [].

(** Field updates of the player object. *)
Definition with_CommandManager_IsEnabled v (p : MediaPlayer) :=
  mkPlayer v (IsClosed p) (IsEnabled p) (buttons p) (PlaybackStatus p)
           (ButtonPressed p) (Timeline p) (Display p) (Shown p).
Definition with_IsClosed v (p : MediaPlayer) :=
  mkPlayer (CommandManager_IsEnabled p) v (IsEnabled p) (buttons p)
           (PlaybackStatus p) (ButtonPressed p) (Timeline p) (Display p) (Shown p).
Definition with_IsEnabled v (p : MediaPlayer) :=
  mkPlayer (CommandManager_IsEnabled p) (IsClosed p) v (buttons p)
           (PlaybackStatus p) (ButtonPressed p) (Timeline p) (Display p) (Shown p).
Definition with_buttons v (p : MediaPlayer) :=
  mkPlayer (CommandManager_IsEnabled p) (IsClosed p) (IsEnabled p) v
           (PlaybackStatus p) (ButtonPressed p) (Timeline p) (Display p) (Shown p).
Definition with_PlaybackStatus v (p : MediaPlayer) :=
  mkPlayer (CommandManager_IsEnabled p) (IsClosed p) (IsEnabled p) (buttons p)
           v (ButtonPressed p) (Timeline p) (Display p) (Shown p).
Definition with_ButtonPressed v (p : MediaPlayer) :=
  mkPlayer (CommandManager_IsEnabled p) (IsClosed p) (IsEnabled p) (buttons p)
           (PlaybackStatus p) v (Timeline p) (Display p) (Shown p).
Definition with_Timeline v (p : MediaPlayer) :=
  mkPlayer (CommandManager_IsEnabled p) (IsClosed p) (IsEnabled p) (buttons p)
           (PlaybackStatus p) (ButtonPressed p) v (Display p) (Shown p).
Definition with_Display v (p : MediaPlayer) :=
  mkPlayer (CommandManager_IsEnabled p) (IsClosed p) (IsEnabled p) (buttons p)
           (PlaybackStatus p) (ButtonPressed p) (Timeline p) v (Shown p).
Definition with_Shown v (p : MediaPlayer) :=
  mkPlayer (CommandManager_IsEnabled p) (IsClosed p) (IsEnabled p) (buttons p)
           (PlaybackStatus p) (ButtonPressed p) (Timeline p) (Display p) v.

Definition with_Type v (d : DisplayUpdater) :=
  mkDisplay v (MusicProperties d) (Thumbnail d).
Definition with_MusicProperties v (d : DisplayUpdater) :=
  mkDisplay (Type_ d) v (Thumbnail d).
Definition with_Thumbnail v (d : DisplayUpdater) :=
  mkDisplay (Type_ d) (MusicProperties d) v.

Definition with_Title v (m : MusicDisplayProperties) :=
  mkMusic v (Artist m) (AlbumTitle m).
Definition with_Artist v (m : MusicDisplayProperties) :=
  mkMusic (Title m) v (AlbumTitle m).
Definition with_AlbumTitle v (m : MusicDisplayProperties) :=
  mkMusic (Title m) (Artist m) v.

Definition with_IsPlayEnabled v (b : Buttons) :=
  mkButtons v (IsPauseEnabled b) (IsStopEnabled b) (IsNextEnabled b)
            (IsPreviousEnabled b) (IsFastForwardEnabled b) (IsRewindEnabled b).
Definition with_IsPauseEnabled v (b : Buttons) :=
  mkButtons (IsPlayEnabled b) v (IsStopEnabled b) (IsNextEnabled b)
            (IsPreviousEnabled b) (IsFastForwardEnabled b) (IsRewindEnabled b).
Definition with_IsStopEnabled v (b : Buttons) :=
  mkButtons (IsPlayEnabled b) (IsPauseEnabled b) v (IsNextEnabled b)
            (IsPreviousEnabled b) (IsFastForwardEnabled b) (IsRewindEnabled b).
Definition with_IsNextEnabled v (b : Buttons) :=
  mkButtons (IsPlayEnabled b) (IsPauseEnabled b) (IsStopEnabled b) v
            (IsPreviousEnabled b) (IsFastForwardEnabled b) (IsRewindEnabled b).
Definition with_IsPreviousEnabled v (b : Buttons) :=
  mkButtons (IsPlayEnabled b) (IsPauseEnabled b) (IsStopEnabled b)
            (IsNextEnabled b) v (IsFastForwardEnabled b) (IsRewindEnabled b).
Definition with_IsFastForwardEnabled v (b : Buttons) :=
  mkButtons (IsPlayEnabled b) (IsPauseEnabled b) (IsStopEnabled b)
            (IsNextEnabled b) (IsPreviousEnabled b) v (IsRewindEnabled b).
Definition with_IsRewindEnabled v (b : Buttons) :=
  mkButtons (IsPlayEnabled b) (IsPauseEnabled b) (IsStopEnabled b)
            (IsNextEnabled b) (IsPreviousEnabled b) (IsFastForwardEnabled b) v.

Definition with_StartTime v (t : TimelineProperties) :=
  mkTimeline v (EndTime t) (Position t) (MinSeekTime t) (MaxSeekTime t).
Definition with_EndTime v (t : TimelineProperties) :=
  mkTimeline (StartTime t) v (Position t) (MinSeekTime t) (MaxSeekTime t).
Definition with_Position v (t : TimelineProperties) :=
  mkTimeline (StartTime t) (EndTime t) v (MinSeekTime t) (MaxSeekTime t).
Definition with_MinSeekTime v (t : TimelineProperties) :=
  mkTimeline (StartTime t) (EndTime t) (Position t) v (MaxSeekTime t).
Definition with_MaxSeekTime v (t : TimelineProperties) :=
  mkTimeline (StartTime t) (EndTime t) (Position t) (MinSeekTime t) v.

(** ** The monad of an exported call *)

Inductive Outcome (A : Type) :=
| Returned (a : A) (s : State)     (* the call returns [a] *)
| Thrown (e : exn) (s : State)     (* an exception leaves the block *)
| Deadlock (s : State).            (* the thread locks a std::mutex it owns *)
Arguments Returned {A} a s.
Arguments Thrown {A} e s.
Arguments Deadlock {A} s.

Definition M (A : Type) := State -> Outcome A.

Definition ret {A} (a : A) : M A := fun s => Returned a s.

Definition bind {A B} (m : M A) (k : A -> M B) : M B :=
  fun s => match m s with
           | Returned a s' => k a s'
           | Thrown e s' => Thrown e s'
           | Deadlock s' => Deadlock s'
           end.

Notation "x <- m ;; k" := (bind m (fun x => k))
  (at level 61, m at next level, right associativity).
Notation "m ;; k" := (bind m (fun _ => k))
  (at level 61, right associativity).

Definition get : M State := fun s => Returned s s.
Definition modify (f : State -> State) : M unit := fun s => Returned tt (f s).
Definition throw {A} (e : exn) : M A := fun s => Thrown e s.

(** [try { body } catch ...]: [handler e] is [None] when no clause matches
    the type of [e], and the exception keeps propagating. *)
Definition try_catch {A} (body : M A) (handler : exn -> option (M A)) : M A :=
  fun s => match body s with
           | Thrown e s' =>
               match handler e with
               | Some h => h s'
               | None => Thrown e s'
               end
           | o => o
           end.

(** [std::lock_guard<std::mutex> lock(g_mutex)] around the rest of a
    function body.  [std::mutex] is not recursive: a thread that locks it
    while owning it does not get past the constructor.  Otherwise the mutex
    is held for the body and released when the scope is left, by return or
    by exception. *)
Definition lock_guard {A} (body : M A) : M A :=
  fun s => if g_mutex s then Deadlock s
           else match body (set_g_mutex true s) with
                | Returned a s' => Returned a (set_g_mutex false s')
                | Thrown e s' => Thrown e (set_g_mutex false s')
                | Deadlock s' => Deadlock s'
                end.

(** ** Calls into the native layer *)

Definition next_reply (s : State) : Reply := hd Ok (replies s).
Definition advance (s : State) : State := set_replies (tl (replies s)) s.

(** The exception a native answer carries, if any. *)
Definition raised (r : Reply) : option exn :=
  match r with
  | Throw e => Some e
  | _ => None
  end.

(** One WinRT call on the player object: it consumes the next answer of
    the environment and either throws or runs [f], which yields the value
    of the call and the object after it. *)
Definition winrt {A} (f : MediaPlayer -> A * MediaPlayer) : M A :=
  fun s => match raised (next_reply s) with
           | Some e => Thrown e (advance s)
           | None => Returned (fst (f (player s)))
                              (set_player (snd (f (player s))) (advance s))
           end.

Definition winrt_set (f : MediaPlayer -> MediaPlayer) : M unit :=
  winrt (fun p => (tt, f p)).
Definition winrt_get {A} (f : MediaPlayer -> A) : M A :=
  winrt (fun p => (f p, p)).
(** A call on an object local to the function (a constructor, a property
    of a temporary): it can only throw, or yield [v]. *)
Definition winrt_local {A} (v : A) : M A := winrt (fun p => (v, p)).

(** A call whose returned reference the source tests against null: [true]
    when the reference is usable. *)
Definition winrt_ref : M bool :=
  fun s => match raised (next_reply s) with
           | Some e => Thrown e (advance s)
           | None => Returned (match next_reply s with Null => false | _ => true end)
                              (advance s)
           end.

Definition upd_buttons (f : Buttons -> Buttons) (p : MediaPlayer) :=
  with_buttons (f (buttons p)) p.
Definition upd_Display (f : DisplayUpdater -> DisplayUpdater) (p : MediaPlayer) :=
  with_Display (f (Display p)) p.
Definition upd_Music (f : MusicDisplayProperties -> MusicDisplayProperties)
                     (p : MediaPlayer) :=
  upd_Display (fun d => with_MusicProperties (f (MusicProperties d)) d) p.

(** COM result codes of the Windows SDK, as signed 32-bit values. *)
Definition S_OK : Z := 0.
Definition S_FALSE : Z := 1.
Definition RPC_E_CHANGED_MODE : Z := -2147417850.   (* 0x80010106 *)
Definition SUCCEEDED (hr : Z) : bool := 0 <=? hr.

Definition CoInitializeEx : M Z :=
  fun s => let hr := hd S_OK (hresults s) in
           let s1 := set_hresults (tl (hresults s)) s in
           Returned hr (if SUCCEEDED hr
                        then set_com_count (com_count s1 + 1) s1 else s1).

Definition CoUninitialize : M unit :=
  modify (fun s => set_com_count (com_count s - 1) s).

(** Running the user's callback: the call is recorded. *)
Definition invoke (cb : nat) (buttonType : SmtcButtonType) : M unit :=
  modify (fun s => set_callback_log (callback_log s ++ [(cb, buttonType)]) s).

(** ** Helpers of smtc_bridge.cpp *)

(** [SetError]: both overloads take the global lock, then assign. *)
Definition SetError (error : string) : M unit :=
  lock_guard (modify (set_g_lastError error)).

(** The block [{ SetError("Not initialized"); return -1; }] every guarded
    operation starts with. *)
Definition not_initialized : M Z :=
  SetError "Not initialized" ;; ret (-1).

(** [catch (const winrt::hresult_error& ex)], the only clause of the
    guarded operations. *)
Definition catch_hresult (e : exn) : option (M Z) :=
  match e with
  | hresult_error message =>
      Some (SetError ("WinRT error: " ++ message)%string ;; ret (-2))
  | std_exception _ => None
  end.

(** The two clauses of [SmtcInitialize]. *)
Definition catch_initialize (e : exn) : option (M Z) :=
  match e with
  | hresult_error message =>
      Some (SetError ("WinRT error: " ++ message)%string ;; ret (-2))
  | std_exception what =>
      Some (SetError ("Exception: " ++ what)%string ;; ret (-3))
  end.

(** [try { ... } catch (...) {}] *)
Definition swallow (body : M unit) : M unit :=
  try_catch body (fun _ => Some (ret tt)).

(** ** Initialisation and shutdown *)

(** The [switch] of the button-pressed lambda; [None] is its
    [default: return;]. *)
Definition to_SmtcButtonType (button : wm.SystemMediaTransportControlsButton)
  : option SmtcButtonType :=
  match button with
  | wm.Play => Some SMTC_BUTTON_PLAY
  | wm.Pause => Some SMTC_BUTTON_PAUSE
  | wm.Stop => Some SMTC_BUTTON_STOP
  | wm.Next => Some SMTC_BUTTON_NEXT
  | wm.Previous => Some SMTC_BUTTON_PREVIOUS
  | wm.FastForward => Some SMTC_BUTTON_FAST_FORWARD
  | wm.Rewind => Some SMTC_BUTTON_REWIND
  | _ => None
  end.

(** The lambda registered with [g_smtc.ButtonPressed].  The platform runs
    it on a thread of its own; it takes no lock. *)
Definition ButtonPressed_handler
    (button : wm.SystemMediaTransportControlsButton) : M unit :=
  s <- get ;;
  match g_buttonCallback s with
  | Some callback =>
      match to_SmtcButtonType button with
      | Some buttonType => invoke callback buttonType
      | None => ret tt
      end
  | None => ret tt
  end.

Definition fresh_token (p : MediaPlayer) : Z :=
  Z.of_nat (List.length (ButtonPressed p)) + 1.

(** Lines 83-146: what [SmtcInitialize] does once COM is settled. *)
Definition initialize_controls : M Z :=
  winrt_set (fun _ => fresh_player) ;;            (* wmp::MediaPlayer() *)
  modify (set_g_mediaPlayer true) ;;
  winrt_local tt ;;                               (* CommandManager() *)
  winrt_set (with_CommandManager_IsEnabled false) ;;
  smtc <- winrt_ref ;;                            (* SystemMediaTransportControls() *)
  modify (set_g_smtc smtc) ;;
  if negb smtc then
    SetError "Failed to get SystemMediaTransportControls" ;; ret (-1)
  else
    winrt_set (upd_buttons (with_IsPlayEnabled true)) ;;
    winrt_set (upd_buttons (with_IsPauseEnabled true)) ;;
    winrt_set (upd_buttons (with_IsNextEnabled true)) ;;
    winrt_set (upd_buttons (with_IsPreviousEnabled true)) ;;
    winrt_set (upd_buttons (with_IsStopEnabled false)) ;;
    winrt_local tt ;;                             (* DisplayUpdater() *)
    modify (set_g_displayUpdater true) ;;
    winrt_set (upd_Display (with_Type wm.Music)) ;;
    token <- winrt (fun p => (fresh_token p,
                              with_ButtonPressed (fresh_token p :: ButtonPressed p) p)) ;;
    modify (set_g_buttonPressedToken token) ;;
    winrt_set (with_IsEnabled true) ;;
    modify (set_g_initialized true) ;;
    modify (set_g_lastError "") ;;
    ret 0.

Definition SmtcInitialize : M Z :=
  lock_guard (
    s <- get ;;
    if g_initialized s then ret 0
    else
      try_catch (
        hr <- CoInitializeEx ;;
        if SUCCEEDED hr then
          modify (set_g_comInitialized true) ;; initialize_controls
        else if hr =? RPC_E_CHANGED_MODE then
          modify (set_g_comInitialized false) ;; initialize_controls
        else if negb (hr =? S_FALSE) then
          SetError "Failed to initialize COM" ;; ret (-1)
        else initialize_controls)
      catch_initialize).

Definition SmtcShutdown : M unit :=
  lock_guard (
    s <- get ;;
    if negb (g_initialized s) then ret tt
    else
      swallow (
        (if g_smtc s then
           swallow (winrt_set (fun p =>
             with_ButtonPressed
               (remove Z.eq_dec (g_buttonPressedToken s) (ButtonPressed p)) p)) ;;
           swallow (winrt_set (with_IsEnabled false))
         else ret tt) ;;
        swallow (modify (set_g_displayUpdater false)) ;;
        swallow (modify (set_g_smtc false)) ;;
        swallow (
          (if g_mediaPlayer s then winrt_set (with_IsClosed true) else ret tt) ;;
          modify (set_g_mediaPlayer false)) ;;
        modify (set_g_buttonCallback None) ;;
        modify (set_g_positionCallback None) ;;
        modify (set_g_initialized false) ;;
        s' <- get ;;
        if g_comInitialized s' then
          CoUninitialize ;; modify (set_g_comInitialized false)
        else ret tt)).

Definition SmtcIsInitialized : M Z :=
  lock_guard (s <- get ;; ret (if g_initialized s then 1 else 0)).

(** ** Media information *)

Definition to_MediaPlaybackType (mediaType : SmtcMediaType)
  : wm.MediaPlaybackType :=
  if mediaType =? SMTC_MEDIA_MUSIC then wm.Music
  else if mediaType =? SMTC_MEDIA_VIDEO then wm.Video
  else if mediaType =? SMTC_MEDIA_IMAGE then wm.Image
  else wm.Unknown.

Definition SmtcSetMediaType (mediaType : SmtcMediaType) : M Z :=
  lock_guard (
    s <- get ;;
    if negb (g_initialized s) || negb (g_displayUpdater s) then not_initialized
    else
      try_catch (
        winrt_set (upd_Display (with_Type (to_MediaPlaybackType mediaType))) ;;
        ret 0)
      catch_hresult).

(** [if (arg) props.Setter(arg);] for a nullable wide string. *)
Definition set_if_present (arg : option string)
    (setter : string -> MusicDisplayProperties -> MusicDisplayProperties)
  : M unit :=
  match arg with
  | Some text => winrt_set (upd_Music (setter text))
  | None => ret tt
  end.

Definition SmtcSetMusicInfo (title artist album : option string) : M Z :=
  lock_guard (
    s <- get ;;
    if negb (g_initialized s) || negb (g_displayUpdater s) then not_initialized
    else
      try_catch (
        winrt_local tt ;;                         (* MusicProperties() *)
        set_if_present title with_Title ;;
        set_if_present artist with_Artist ;;
        set_if_present album with_AlbumTitle ;;
        ret 0)
      catch_hresult).

Definition SmtcSetThumbnailFromFile (filePath : option string) : M Z :=
  lock_guard (
    s <- get ;;
    if negb (g_initialized s) || negb (g_displayUpdater s) then not_initialized
    else
      try_catch (
        match filePath with
        | Some path =>
            uri <- winrt_local path ;;            (* wf::Uri uri(filePath) *)
            streamRef <- winrt_local (FromUri uri) ;;
            winrt_set (upd_Display (with_Thumbnail (Some streamRef)))
        | None =>
            winrt_set (upd_Display (with_Thumbnail None))
        end ;;
        ret 0)
      catch_hresult).

(** [data] is the caller's buffer ([None]: a null pointer), [dataSize] an
    [unsigned int]; [mimeType] is accepted and never read. *)
Definition SmtcSetThumbnailFromMemory
    (data : option (list byte)) (dataSize : Z) (mimeType : option string)
  : M Z :=
  lock_guard (
    s <- get ;;
    if negb (g_initialized s) || negb (g_displayUpdater s) then not_initialized
    else
      try_catch (
        match data with
        | Some buffer =>
            if 0 <? dataSize then
              winrt_local tt ;;                   (* InMemoryRandomAccessStream *)
              winrt_local tt ;;                   (* DataWriter writer(stream) *)
              stream <- winrt_local (firstn (Z.to_nat dataSize) buffer) ;;
              winrt_local tt ;;                   (* StoreAsync().get() *)
              winrt_local tt ;;                   (* DetachStream() *)
              winrt_local tt ;;                   (* Seek(0) *)
              streamRef <- winrt_local (FromStream stream) ;;
              winrt_set (upd_Display (with_Thumbnail (Some streamRef)))
            else winrt_set (upd_Display (with_Thumbnail None))
        | None => winrt_set (upd_Display (with_Thumbnail None))
        end ;;
        ret 0)
      catch_hresult).

Definition SmtcClearThumbnail : M Z :=
  lock_guard (
    s <- get ;;
    if negb (g_initialized s) || negb (g_displayUpdater s) then not_initialized
    else
      try_catch (
        winrt_set (upd_Display (with_Thumbnail None)) ;;
        ret 0)
      catch_hresult).

Definition SmtcUpdateDisplay : M Z :=
  lock_guard (
    s <- get ;;
    if negb (g_initialized s) || negb (g_displayUpdater s) then not_initialized
    else
      try_catch (
        winrt_set (fun p => with_Shown (Display p) p) ;;
        ret 0)
      catch_hresult).

(** ** Playback status *)

Definition to_MediaPlaybackStatus (status : SmtcPlaybackStatus)
  : wm.MediaPlaybackStatus :=
  if status =? SMTC_PLAYBACK_CLOSED then wm.Closed
  else if status =? SMTC_PLAYBACK_STOPPED then wm.Stopped
  else if status =? SMTC_PLAYBACK_PLAYING then wm.Playing
  else if status =? SMTC_PLAYBACK_PAUSED then wm.Paused
  else if status =? SMTC_PLAYBACK_CHANGING then wm.Changing
  else wm.Stopped.

Definition SmtcSetPlaybackStatus (status : SmtcPlaybackStatus) : M Z :=
  lock_guard (
    s <- get ;;
    if negb (g_initialized s) || negb (g_smtc s) then not_initialized
    else
      try_catch (
        winrt_set (with_PlaybackStatus (to_MediaPlaybackStatus status)) ;;
        ret 0)
      catch_hresult).

Definition of_MediaPlaybackStatus (status : wm.MediaPlaybackStatus)
  : SmtcPlaybackStatus :=
  match status with
  | wm.Closed => SMTC_PLAYBACK_CLOSED
  | wm.Stopped => SMTC_PLAYBACK_STOPPED
  | wm.Playing => SMTC_PLAYBACK_PLAYING
  | wm.Paused => SMTC_PLAYBACK_PAUSED
  | wm.Changing => SMTC_PLAYBACK_CHANGING
  | wm.OtherStatus _ => SMTC_PLAYBACK_STOPPED
  end.

Definition SmtcGetPlaybackStatus : M SmtcPlaybackStatus :=
  lock_guard (
    s <- get ;;
    if negb (g_initialized s) || negb (g_smtc s) then ret SMTC_PLAYBACK_CLOSED
    else
      try_catch (
        status <- winrt_get PlaybackStatus ;;
        ret (of_MediaPlaybackStatus status))
      (fun _ => Some (ret SMTC_PLAYBACK_CLOSED))).

(** ** Button enablement *)

(** The property a [case] label of the two button switches selects; [None]
    is their [default:]. *)
Definition button_property (buttonType : SmtcButtonType)
  : option ((Buttons -> bool) * (bool -> Buttons -> Buttons)) :=
  if buttonType =? SMTC_BUTTON_PLAY then
    Some (IsPlayEnabled, with_IsPlayEnabled)
  else if buttonType =? SMTC_BUTTON_PAUSE then
    Some (IsPauseEnabled, with_IsPauseEnabled)
  else if buttonType =? SMTC_BUTTON_STOP then
    Some (IsStopEnabled, with_IsStopEnabled)
  else if buttonType =? SMTC_BUTTON_NEXT then
    Some (IsNextEnabled, with_IsNextEnabled)
  else if buttonType =? SMTC_BUTTON_PREVIOUS then
    Some (IsPreviousEnabled, with_IsPreviousEnabled)
  else if buttonType =? SMTC_BUTTON_FAST_FORWARD then
    Some (IsFastForwardEnabled, with_IsFastForwardEnabled)
  else if buttonType =? SMTC_BUTTON_REWIND then
    Some (IsRewindEnabled, with_IsRewindEnabled)
  else None.

Definition SmtcSetButtonEnabled (buttonType : SmtcButtonType) (enabled : Z)
  : M Z :=
  lock_guard (
    s <- get ;;
    if negb (g_initialized s) || negb (g_smtc s) then not_initialized
    else
      try_catch (
        let isEnabled := negb (enabled =? 0) in
        match button_property buttonType with
        | Some (_, setter) =>
            winrt_set (upd_buttons (setter isEnabled)) ;;
            ret 0
        | None =>
            SetError "Unknown button type" ;; ret (-1)
        end)
      catch_hresult).

Definition SmtcIsButtonEnabled (buttonType : SmtcButtonType) : M Z :=
  lock_guard (
    s <- get ;;
    if negb (g_initialized s) || negb (g_smtc s) then ret 0
    else
      try_catch (
        match button_property buttonType with
        | Some (getter, _) =>
            on <- winrt_get (fun p => getter (buttons p)) ;;
            ret (if on then 1 else 0)
        | None => ret 0
        end)
      (fun _ => Some (ret 0))).

(** ** Timeline *)

Definition fresh_timeline : TimelineProperties := mkTimeline 0 0 0 0 0.

(** Two's-complement wrap-around of a signed 64-bit result. *)
Definition wrap_int64 (z : Z) : Z :=
  (z + 9223372036854775808) mod 18446744073709551616 - 9223372036854775808.

(** [std::chrono::milliseconds(ms)] handed to a property of type
    [TimeSpan]: the implicit conversion multiplies the 64-bit count by
    10000 (milliseconds to 100 ns ticks) in 64-bit arithmetic. *)
Definition milliseconds (ms : Z) : Z := wrap_int64 (ms * 10000).

Definition SmtcSetTimelineProperties (startTimeMs endTimeMs positionMs : Z)
  : M Z :=
  lock_guard (
    s <- get ;;
    if negb (g_initialized s) || negb (g_smtc s) then not_initialized
    else
      try_catch (
        timeline <- winrt_local fresh_timeline ;;
        timeline <- winrt_local
                      (with_StartTime (milliseconds startTimeMs) timeline) ;;
        timeline <- winrt_local
                      (with_EndTime (milliseconds endTimeMs) timeline) ;;
        timeline <- winrt_local
                      (with_Position (milliseconds positionMs) timeline) ;;
        timeline <- winrt_local
                      (with_MinSeekTime (milliseconds startTimeMs) timeline) ;;
        timeline <- winrt_local
                      (with_MaxSeekTime (milliseconds endTimeMs) timeline) ;;
        winrt_set (with_Timeline timeline) ;;
        ret 0)
      catch_hresult).

(** ** Callbacks and the error string *)

Definition SmtcSetButtonPressedCallback (callback : SmtcButtonPressedCallback)
  : M unit :=
  lock_guard (modify (set_g_buttonCallback callback)).

Definition SmtcSetPositionChangeRequestedCallback
    (callback : SmtcPositionChangeRequestedCallback) : M unit :=
  lock_guard (modify (set_g_positionCallback callback)).

Definition SmtcGetLastError : M string :=
  lock_guard (s <- get ;; ret (g_lastError s)).

Definition SmtcClearError : M unit :=
  lock_guard (modify (set_g_lastError "")).

(** ** The exported surface as one type of calls *)

Inductive Call :=
| CInitialize
| CShutdown
| CIsInitialized
| CSetMediaType (mediaType : SmtcMediaType)
| CSetMusicInfo (title artist album : option string)
| CSetThumbnailFromFile (filePath : option string)
| CSetThumbnailFromMemory (data : option (list byte)) (dataSize : Z)
                          (mimeType : option string)
| CClearThumbnail
| CUpdateDisplay
| CSetPlaybackStatus (status : SmtcPlaybackStatus)
| CGetPlaybackStatus
| CSetButtonEnabled (buttonType : SmtcButtonType) (enabled : Z)
| CIsButtonEnabled (buttonType : SmtcButtonType)
| CSetTimelineProperties (startTimeMs endTimeMs positionMs : Z)
| CSetButtonPressedCallback (callback : SmtcButtonPressedCallback)
| CSetPositionChangeRequestedCallback
    (callback : SmtcPositionChangeRequestedCallback)
| CGetLastError
| CClearError.

(** What a call hands back: an [int], nothing, or the error string. *)
Inductive Value := VInt (z : Z) | VVoid | VString (text : string).

Definition lift {A} (f : A -> Value) (m : M A) : M Value :=
  a <- m ;; ret (f a).

Definition exec (c : Call) : M Value :=
  match c with
  | CInitialize => lift VInt SmtcInitialize
  | CShutdown => lift (fun _ => VVoid) SmtcShutdown
  | CIsInitialized => lift VInt SmtcIsInitialized
  | CSetMediaType t => lift VInt (SmtcSetMediaType t)
  | CSetMusicInfo t a al => lift VInt (SmtcSetMusicInfo t a al)
  | CSetThumbnailFromFile p => lift VInt (SmtcSetThumbnailFromFile p)
  | CSetThumbnailFromMemory d n m => lift VInt (SmtcSetThumbnailFromMemory d n m)
  | CClearThumbnail => lift VInt SmtcClearThumbnail
  | CUpdateDisplay => lift VInt SmtcUpdateDisplay
  | CSetPlaybackStatus st => lift VInt (SmtcSetPlaybackStatus st)
  | CGetPlaybackStatus => lift VInt SmtcGetPlaybackStatus
  | CSetButtonEnabled b e => lift VInt (SmtcSetButtonEnabled b e)
  | CIsButtonEnabled b => lift VInt (SmtcIsButtonEnabled b)
  | CSetTimelineProperties st en pos =>
      lift VInt (SmtcSetTimelineProperties st en pos)
  | CSetButtonPressedCallback cb =>
      lift (fun _ => VVoid) (SmtcSetButtonPressedCallback cb)
  | CSetPositionChangeRequestedCallback cb =>
      lift (fun _ => VVoid) (SmtcSetPositionChangeRequestedCallback cb)
  | CGetLastError => lift VString SmtcGetLastError
  | CClearError => lift (fun _ => VVoid) SmtcClearError
  end.

(** The operations that open with the [not_initialized] guard. *)
Definition guarded (c : Call) : bool :=
  match c with
  | CSetMediaType _ | CSetMusicInfo _ _ _ | CSetThumbnailFromFile _
  | CSetThumbnailFromMemory _ _ _ | CClearThumbnail | CUpdateDisplay
  | CSetPlaybackStatus _ | CSetButtonEnabled _ _
  | CSetTimelineProperties _ _ _ => true
  | _ => false
  end.

(** The states the module can be in before [SmtcInitialize] first succeeds:
    the static initial state, and whatever a returning call other than a
    successful [SmtcInitialize] makes of such a state. *)
Inductive pre_init : State -> Prop :=
| pre_init_start rs hrs : pre_init (initial_state rs hrs)
| pre_init_call c s v s' :
    pre_init s ->
    exec c s = Returned v s' ->
    (c = CInitialize -> v <> VInt 0) ->
    pre_init s'.

(** The states the module passes through between calls: from the static
    initial state, by any exported call that returns and by any delivery of
    a button-pressed event to the lambda. *)
Inductive reachable : State -> Prop :=
| reachable_start rs hrs : reachable (initial_state rs hrs)
| reachable_call c s v s' :
    reachable s -> exec c s = Returned v s' -> reachable s'
| reachable_event button s s' :
    reachable s -> ButtonPressed_handler button s = Returned tt s' ->
    reachable s'.

(** ** Auxiliary predicates *)

(** The state a call ends in, whatever the outcome. *)
Definition final {A} (o : Outcome A) : State :=
  match o with
  | Returned _ s => s
  | Thrown _ s => s
  | Deadlock s => s
  end.

(** The module is initialised and idle: the flag is set, the references the
    guards test are usable, and no call holds the lock. *)
Definition initialized (s : State) : bool :=
  negb (g_mutex s) && g_initialized s && g_smtc s && g_displayUpdater s.

(** The native layer raises nothing in its next [n] answers. *)
Fixpoint calm (n : nat) (l : list Reply) : bool :=
  match n with
  | O => true
  | S n' =>
      match raised (hd Ok l) with
      | Some _ => false
      | None => calm n' (tl l)
      end
  end.

(** The native layer lets a full [SmtcInitialize] through: COM answers with
    a code the function accepts, none of its thirteen WinRT calls throws,
    and the fourth, [SystemMediaTransportControls()], yields a reference. *)
Definition hr_accepted (hr : Z) : bool :=
  SUCCEEDED hr || (hr =? RPC_E_CHANGED_MODE) || (hr =? S_FALSE).

Definition native_ready (s : State) : bool :=
  hr_accepted (hd S_OK (hresults s))
  && calm 13 (replies s)
  && match hd Ok (tl (tl (tl (replies s)))) with Null => false | _ => true end.

(** Two concrete states: the module as loaded, and the module after a first
    [SmtcInitialize] against a native layer that raises nothing. *)
Definition idle_state : State := initial_state [] [].
Definition running_state : State := final (SmtcInitialize idle_state).

(** The music properties staged in the display updater. *)
Definition music (s : State) : MusicDisplayProperties :=
  MusicProperties (Display (player s)).

(** What a nullable argument makes of a field: the text when present, the
    old value when null. *)
Definition keep_or (arg : option string) (old : string) : string :=
  match arg with
  | Some text => text
  | None => old
  end.

Definition present (arg : option string) : nat :=
  match arg with
  | Some _ => 1
  | None => 0
  end.

(** The native buttons the lambda has a [case] for, in the order of
    [wired_buttons] below. *)
Definition relayed_buttons : list wm.SystemMediaTransportControlsButton :=
  [wm.Play; wm.Pause; wm.Stop; wm.Next; wm.Previous; wm.FastForward; wm.Rewind].

(** [s'] is [s] but, at most, for the lock and the error string: no
    native answer was consumed, and the player object, the flag, the
    references and the callback slots are as they were. *)
Definition same_but_lock_and_error (s s' : State) : Prop :=
  set_g_lastError (g_lastError s') (set_g_mutex (g_mutex s') s) = s'.

(** The largest magnitude, in milliseconds, whose tick count fits in 64
    bits. *)
Definition max_milliseconds : Z := 922337203685477.

(** The buttons both switches have a [case] for. *)
Definition wired_buttons : list SmtcButtonType :=
  [SMTC_BUTTON_PLAY; SMTC_BUTTON_PAUSE; SMTC_BUTTON_STOP; SMTC_BUTTON_NEXT;
   SMTC_BUTTON_PREVIOUS; SMTC_BUTTON_FAST_FORWARD; SMTC_BUTTON_REWIND].

(** ** Further vocabulary for the properties of the whole surface *)

(** The exception is a [std::exception], the kind the guarded operations
    have no [catch] clause for. *)
Definition is_std (e : exn) : Prop :=
  match e with
  | std_exception _ => True
  | hresult_error _ => False
  end.

(** The value [SmtcGetPlaybackStatus] reads back after
    [SmtcSetPlaybackStatus status]: the status itself when it is one of the
    five enumerators, [SMTC_PLAYBACK_STOPPED] otherwise. *)
Definition read_back (status : SmtcPlaybackStatus) : SmtcPlaybackStatus :=
  if (SMTC_PLAYBACK_CLOSED <=? status) && (status <=? SMTC_PLAYBACK_CHANGING)
  then status else SMTC_PLAYBACK_STOPPED.

(** The C truth value of a [bool]. *)
Definition int_of_bool (b : bool) : Z := if b then 1 else 0.

(** The answer of the native layer that [SmtcShutdown] gets for
    [g_mediaPlayer.Close()]: the third when the two calls on [g_smtc] come
    first, the first otherwise. *)
Definition close_reply (s : State) : Reply :=
  if g_smtc s then hd Ok (tl (tl (replies s))) else hd Ok (replies s).

(** * Properties *)

(** ** Locking *)

Lemma lock_guard_locked {A} (body : M A) s :
  g_mutex s = true -> lock_guard body s = Deadlock s.
Proof. intros H. unfold lock_guard. now rewrite H. Qed.

Lemma SetError_locked error s :
  g_mutex s = true -> SetError error s = Deadlock s.
Proof. apply lock_guard_locked. Qed.

Lemma SetError_unlocked error s :
  g_mutex s = false ->
  SetError error s
    = Returned tt (set_g_mutex false (set_g_lastError error (set_g_mutex true s))).
Proof. intros H. unfold SetError, lock_guard. now rewrite H. Qed.

Lemma not_initialized_locked s :
  g_mutex s = true -> not_initialized s = Deadlock s.
Proof.
  intros H. unfold not_initialized, bind. now rewrite SetError_locked.
Qed.

(** ** Symbolic execution of a call

    The proofs below run an operation on a state whose fields are
    variables.  [flatten] unfolds the monad and the field updates, which
    keeps the state a single record; [step_native] splits on what the
    native layer answers to the next call; [blocked] closes the branches
    that end on the mutex or in an exception. *)

Ltac flatten :=
  cbv beta iota zeta delta
    [set_g_mutex set_g_initialized set_g_comInitialized set_g_mediaPlayer
     set_g_smtc set_g_displayUpdater set_g_lastError set_g_buttonCallback
     set_g_positionCallback set_g_buttonPressedToken set_player set_com_count
     set_replies set_hresults set_callback_log
     g_mutex g_initialized g_comInitialized g_mediaPlayer g_smtc
     g_displayUpdater g_lastError g_buttonCallback g_positionCallback
     g_buttonPressedToken player com_count replies hresults callback_log
     fst snd negb andb orb
     bind ret get modify throw try_catch swallow lock_guard SetError
     not_initialized catch_hresult catch_initialize winrt winrt_set winrt_get
     winrt_local winrt_ref next_reply advance invoke CoInitializeEx
     CoUninitialize lift final initialized].

Ltac flatten_in H :=
  cbv beta iota zeta delta
    [set_g_mutex set_g_initialized set_g_comInitialized set_g_mediaPlayer
     set_g_smtc set_g_displayUpdater set_g_lastError set_g_buttonCallback
     set_g_positionCallback set_g_buttonPressedToken set_player set_com_count
     set_replies set_hresults set_callback_log
     g_mutex g_initialized g_comInitialized g_mediaPlayer g_smtc
     g_displayUpdater g_lastError g_buttonCallback g_positionCallback
     g_buttonPressedToken player com_count replies hresults callback_log
     fst snd negb andb orb
     bind ret get modify throw try_catch swallow lock_guard SetError
     not_initialized catch_hresult catch_initialize winrt winrt_set winrt_get
     winrt_local winrt_ref next_reply advance invoke CoInitializeEx
     CoUninitialize lift final initialized] in H.

Ltac blocked :=
  match goal with
  | |- Deadlock _ = Returned _ _ -> _ => discriminate
  | |- Thrown _ _ = Returned _ _ -> _ => discriminate
  | H : Some _ = None |- _ => discriminate H
  | H : true = false |- _ => discriminate H
  | H : false = true |- _ => discriminate H
  end.

Ltac step_native :=
  match goal with
  | |- context [match raised ?r with _ => _ end] =>
      let E := fresh "E" in
      destruct (raised r) as [[?|?]|] eqn:E; flatten
  | |- context [match ?r with Ok => _ | Null => _ | Throw _ => _ end] =>
      lazymatch r with
      | hd _ _ => destruct r eqn:?; cbn [raised] in *; flatten
      end
  end.

Ltac crunch := repeat (step_native; try blocked).

(** Splits a state into its fields and pushes the hypotheses on it down to
    them. *)
Ltac open_state s :=
  destruct s as [mu ini com mp sm du err bcb pcb tok pl cc rs hrs log];
  repeat match goal with
         | H : context [mkState] |- _ => progress flatten_in H
         end.

(** ** SmtcInitialize *)

(** Whenever [SmtcInitialize] returns, it returns 0 with the flag set and
    the lock released. *)
Lemma SmtcInitialize_returns s rc s1 :
  SmtcInitialize s = Returned rc s1 ->
  rc = 0 /\ g_initialized s1 = true /\ g_mutex s1 = false.
Proof.
  open_state s.
  unfold SmtcInitialize, initialize_controls; flatten.
  destruct mu; [discriminate|].
  destruct ini; flatten.
  - intros H; injection H as <- <-; flatten; auto.
  - destruct (SUCCEEDED (hd S_OK hrs)); flatten;
      [| destruct (hd S_OK hrs =? RPC_E_CHANGED_MODE); flatten;
         [| destruct (hd S_OK hrs =? S_FALSE); flatten; [|blocked] ] ].
    all: crunch.
    all: intros H; injection H as <- <-; flatten; auto.
Qed.

(** A set-up that ran to its end leaves the references the guards test
    usable. *)
Lemma SmtcInitialize_establishes s rc s1 :
  g_initialized s = false ->
  SmtcInitialize s = Returned rc s1 ->
  initialized s1 = true.
Proof.
  intros Hi. open_state s. subst.
  unfold SmtcInitialize, initialize_controls; flatten.
  destruct mu; [discriminate|].
  destruct (SUCCEEDED (hd S_OK hrs)); flatten;
    [| destruct (hd S_OK hrs =? RPC_E_CHANGED_MODE); flatten;
       [| destruct (hd S_OK hrs =? S_FALSE); flatten; [|blocked] ] ].
  all: crunch.
  all: intros H; injection H as _ <-; reflexivity.
Qed.

Lemma SmtcInitialize_already s :
  g_mutex s = false -> g_initialized s = true ->
  SmtcInitialize s = Returned 0 s.
Proof.
  intros Hm Hi. open_state s. subst.
  unfold SmtcInitialize; flatten. reflexivity.
Qed.

(** With a cooperating native layer the full set-up path succeeds. *)
Lemma SmtcInitialize_ready s :
  g_mutex s = false -> g_initialized s = false -> native_ready s = true ->
  exists s', SmtcInitialize s = Returned 0 s' /\ initialized s' = true.
Proof.
  intros Hm Hi Hr. open_state s. subst.
  unfold native_ready, hr_accepted in Hr. flatten_in Hr.
  apply andb_prop in Hr as [Hr Hnull]. apply andb_prop in Hr as [Hhr Hcalm].
  cbn [calm] in Hcalm.
  unfold SmtcInitialize, initialize_controls; flatten.
  destruct (SUCCEEDED (hd S_OK hrs)); flatten;
    [| destruct (hd S_OK hrs =? RPC_E_CHANGED_MODE); flatten;
       [| destruct (hd S_OK hrs =? S_FALSE); flatten; [|discriminate] ] ].
  all: repeat (step_native;
               try match goal with
                   | H : raised ?r = Some _, C : context [raised ?r] |- _ =>
                       rewrite H in C; discriminate C
                   end).
  all: try discriminate.
  all: eexists; split; [reflexivity|reflexivity].
Qed.

(** C3.  [SmtcInitialize] is idempotent: once a call has succeeded, calling
    it again returns 0 at once, runs no native set-up (no answer of the
    native layer is consumed) and leaves the whole module state as it
    was. *)
Theorem SmtcInitialize_idempotent s s1 :
  SmtcInitialize s = Returned 0 s1 ->
  SmtcInitialize s1 = Returned 0 s1.
Proof.
  intros H. apply SmtcInitialize_returns in H as (_ & Hi & Hm).
  now apply SmtcInitialize_already.
Qed.

Lemma SmtcInitialize_idempotent_witness :
  SmtcInitialize idle_state = Returned 0 running_state /\
  SmtcInitialize running_state = Returned 0 running_state.
Proof.
  split; [vm_compute; reflexivity|].
  apply (SmtcInitialize_idempotent idle_state). vm_compute. reflexivity.
Defined.

(** ** SmtcShutdown *)

Lemma SmtcShutdown_uninitialized s :
  g_mutex s = false -> g_initialized s = false ->
  SmtcShutdown s = Returned tt s.
Proof.
  intros Hm Hi. open_state s. subst.
  unfold SmtcShutdown; flatten. reflexivity.
Qed.

(** Whatever the native layer does during the tear-down, [SmtcShutdown]
    returns with the flag and both callback slots cleared. *)
Lemma SmtcShutdown_initialized s :
  g_mutex s = false -> g_initialized s = true ->
  exists s2, SmtcShutdown s = Returned tt s2 /\
             g_mutex s2 = false /\ g_initialized s2 = false /\
             g_buttonCallback s2 = None /\ g_positionCallback s2 = None /\
             g_lastError s2 = g_lastError s.
Proof.
  intros Hm Hi. open_state s. subst.
  unfold SmtcShutdown; flatten.
  destruct sm, mp, com; flatten; crunch.
  all: eexists; split; [reflexivity|]; flatten; auto.
Qed.

Lemma SmtcIsInitialized_reads s :
  g_mutex s = false ->
  SmtcIsInitialized s = Returned (if g_initialized s then 1 else 0) s.
Proof.
  intros Hm. open_state s. subst.
  unfold SmtcIsInitialized; flatten. reflexivity.
Qed.

(** C4.  [SmtcShutdown] in the uninitialised state changes nothing.  From
    any state in which the module is initialised (which is where a
    successful [SmtcInitialize] leaves it, see [SmtcInitialize_returns]),
    [SmtcShutdown] returns, after it [SmtcIsInitialized] answers 0 and both
    callback slots are null, and a further [SmtcInitialize] runs the set-up
    again and succeeds when the native layer lets it through. *)
Theorem SmtcShutdown_lifecycle s :
  g_mutex s = false ->
  (g_initialized s = false -> SmtcShutdown s = Returned tt s) /\
  (g_initialized s = true ->
   exists s2,
     SmtcShutdown s = Returned tt s2 /\
     SmtcIsInitialized s2 = Returned 0 s2 /\
     g_buttonCallback s2 = None /\
     g_positionCallback s2 = None /\
     (native_ready s2 = true ->
      exists s3, SmtcInitialize s2 = Returned 0 s3 /\
                 SmtcIsInitialized s3 = Returned 1 s3)).
Proof.
  intros Hm. split; intros Hi.
  - now apply SmtcShutdown_uninitialized.
  - destruct (SmtcShutdown_initialized s Hm Hi)
      as (s2 & Hs & Hm2 & Hi2 & Hb & Hp & _).
    exists s2. repeat split; auto.
    + rewrite SmtcIsInitialized_reads by assumption. now rewrite Hi2.
    + intros Hr.
      destruct (SmtcInitialize_ready s2 Hm2 Hi2 Hr) as (s3 & H3 & Hinit).
      exists s3. split; [assumption|].
      apply SmtcInitialize_returns in H3 as (_ & Hi3 & Hm3).
      rewrite SmtcIsInitialized_reads by assumption. now rewrite Hi3.
Qed.

Lemma SmtcShutdown_lifecycle_witness :
  SmtcShutdown idle_state = Returned tt idle_state /\
  exists s2,
    SmtcShutdown (set_g_buttonCallback (Some 7%nat) running_state)
      = Returned tt s2 /\
    SmtcIsInitialized s2 = Returned 0 s2 /\
    g_buttonCallback s2 = None /\
    exists s3, SmtcInitialize s2 = Returned 0 s3 /\
               SmtcIsInitialized s3 = Returned 1 s3.
Proof.
  split.
  - apply (SmtcShutdown_lifecycle idle_state); reflexivity.
  - destruct (SmtcShutdown_lifecycle
                (set_g_buttonCallback (Some 7%nat) running_state))
      as [_ H]; [reflexivity|].
    destruct (H eq_refl) as (s2 & Hs & Hq & Hb & _ & Hagain).
    exists s2. repeat split; try assumption.
    apply Hagain.
    assert (E : s2 = final (SmtcShutdown
                  (set_g_buttonCallback (Some 7%nat) running_state)))
      by (rewrite Hs; reflexivity).
    rewrite E. vm_compute. reflexivity.
Defined.

(** ** Failure paths *)

Ltac unfold_calls :=
  unfold exec, SmtcSetMediaType, SmtcSetMusicInfo, SmtcSetThumbnailFromFile,
    SmtcSetThumbnailFromMemory, SmtcClearThumbnail, SmtcUpdateDisplay,
    SmtcSetPlaybackStatus, SmtcGetPlaybackStatus, SmtcSetButtonEnabled,
    SmtcIsButtonEnabled, SmtcSetTimelineProperties,
    SmtcSetButtonPressedCallback, SmtcSetPositionChangeRequestedCallback,
    SmtcGetLastError, SmtcClearError, SmtcIsInitialized, SmtcShutdown,
    set_if_present in *.

Lemma lift_Returned {A} (f : A -> Value) (m : M A) s v s' :
  lift f m s = Returned v s' ->
  exists a, m s = Returned a s' /\ v = f a.
Proof.
  unfold lift, bind, ret. destruct (m s); try discriminate.
  intros H; injection H as <- <-. eauto.
Qed.

(** Every guarded operation called while uninitialised enters
    [not_initialized] under the lock and stops in [SetError]. *)
Lemma guarded_blocks_uninitialized c s :
  guarded c = true -> g_mutex s = false -> g_initialized s = false ->
  exec c s = Deadlock (set_g_mutex true s).
Proof.
  intros Hg Hm Hi. open_state s. subst.
  destruct c; try discriminate Hg; unfold_calls; flatten; reflexivity.
Qed.

(** The same when the module is initialised and the first native call of
    the operation throws [hresult_error]: the [catch] clause stops in
    [SetError], and the error string is never written. *)
Lemma guarded_blocks_on_hresult c s message :
  guarded c = true -> initialized s = true ->
  hd Ok (replies s) = Throw (hresult_error message) ->
  exists s', exec c s = Deadlock s' /\ g_lastError s' = g_lastError s.
Proof.
  intros Hg Hi Ht. open_state s.
  destruct mu, ini, sm, du; try discriminate Hi.
  destruct c; try discriminate Hg; unfold_calls; flatten;
    rewrite ?Ht; cbn [raised]; flatten.
  all: try (eexists; split; reflexivity).
  - destruct filePath; flatten; rewrite Ht; cbn [raised]; flatten;
      eexists; split; reflexivity.
  - destruct data; [destruct (0 <? dataSize)|]; flatten;
      rewrite Ht; cbn [raised]; flatten; eexists; split; reflexivity.
  - destruct (button_property buttonType) as [[getter setter]|]; flatten;
      rewrite ?Ht; cbn [raised]; flatten; eexists; split; reflexivity.
Qed.

(** [SmtcInitialize] refused by COM stops in [SetError] as well. *)
Lemma SmtcInitialize_blocks_on_COM s :
  g_mutex s = false -> g_initialized s = false ->
  hr_accepted (hd S_OK (hresults s)) = false ->
  exists s', SmtcInitialize s = Deadlock s' /\ g_lastError s' = g_lastError s.
Proof.
  intros Hm Hi Hhr. open_state s. subst.
  unfold hr_accepted in Hhr.
  apply orb_false_elim in Hhr as [Hhr H3].
  apply orb_false_elim in Hhr as [H1 H2].
  unfold SmtcInitialize; flatten. rewrite H1, H2, H3.
  eexists; split; reflexivity.
Qed.

(** C1 (the code departs from it).  No failure path of the guarded
    operations hands a negative code back.  With the lock free on entry:
    called while uninitialised, every guarded operation blocks on the mutex
    inside [SetError]; called while initialised with a native call that
    throws [hresult_error], it blocks likewise in its [catch] clause; and
    [SmtcInitialize] blocks when COM refuses to initialise. *)
Theorem failure_paths_block s :
  g_mutex s = false ->
  (g_initialized s = false ->
   forall c, guarded c = true -> exec c s = Deadlock (set_g_mutex true s)) /\
  (initialized s = true ->
   forall c message,
     guarded c = true ->
     hd Ok (replies s) = Throw (hresult_error message) ->
     exists s', exec c s = Deadlock s' /\ g_lastError s' = g_lastError s) /\
  (g_initialized s = false ->
   hr_accepted (hd S_OK (hresults s)) = false ->
   exists s', SmtcInitialize s = Deadlock s' /\ g_lastError s' = g_lastError s).
Proof.
  intros Hm. repeat split.
  - intros Hi c Hg. now apply guarded_blocks_uninitialized.
  - intros Hi c message Hg Ht. now apply guarded_blocks_on_hresult with message.
  - intros Hi Hhr. now apply SmtcInitialize_blocks_on_COM.
Qed.

Lemma failure_paths_block_witness :
  exec (CSetMediaType SMTC_MEDIA_MUSIC) idle_state
    = Deadlock (set_g_mutex true idle_state) /\
  (exists s',
     exec CUpdateDisplay
          (set_replies [Throw (hresult_error "E_FAIL")] running_state)
       = Deadlock s') /\
  (exists s', SmtcInitialize (initial_state [] [-2147467259]) = Deadlock s').
Proof.
  split; [|split].
  - destruct (failure_paths_block idle_state) as [H _]; [reflexivity|].
    apply H; reflexivity.
  - destruct (failure_paths_block
                (set_replies [Throw (hresult_error "E_FAIL")] running_state))
      as (_ & H & _); [reflexivity|].
    destruct (H eq_refl CUpdateDisplay "E_FAIL" eq_refl eq_refl) as (s' & Hs' & _).
    exists s'. exact Hs'.
  - destruct (failure_paths_block (initial_state [] [-2147467259]))
      as (_ & _ & H); [reflexivity|].
    destruct (H eq_refl eq_refl) as (s' & Hs' & _).
    exists s'. exact Hs'.
Defined.

(** ** Before the first successful SmtcInitialize *)

(** The flag stays clear and the lock free along every sequence of calls
    that contains no successful [SmtcInitialize]. *)
Lemma pre_init_inv s :
  pre_init s -> g_initialized s = false /\ g_mutex s = false.
Proof.
  induction 1 as [rs hrs | c s v s' Hpre [Hi Hm] Hexec Hnot].
  - split; reflexivity.
  - destruct (guarded c) eqn:Hg.
    { rewrite (guarded_blocks_uninitialized c s Hg Hm Hi) in Hexec.
      discriminate Hexec. }
    destruct c; try discriminate Hg.
    + (* SmtcInitialize *)
      apply lift_Returned in Hexec as (rc & Hrun & ->).
      apply SmtcInitialize_returns in Hrun as (-> & _ & _).
      now destruct Hnot.
    + apply lift_Returned in Hexec as (a & Hrun & _).
      rewrite SmtcShutdown_uninitialized in Hrun by assumption.
      injection Hrun as _ <-. auto.
    + apply lift_Returned in Hexec as (a & Hrun & _).
      rewrite SmtcIsInitialized_reads in Hrun by assumption.
      injection Hrun as _ <-. auto.
    + open_state s. subst. unfold_calls. flatten_in Hexec.
      injection Hexec as _ <-. auto.
    + open_state s. subst. unfold_calls. flatten_in Hexec.
      injection Hexec as _ <-. auto.
    + open_state s. subst. unfold_calls. flatten_in Hexec.
      injection Hexec as _ <-. auto.
    + open_state s. subst. unfold_calls. flatten_in Hexec.
      injection Hexec as _ <-. auto.
    + open_state s. subst. unfold_calls. flatten_in Hexec.
      injection Hexec as _ <-. auto.
    + open_state s. subst. unfold_calls. flatten_in Hexec.
      injection Hexec as _ <-. auto.
Qed.

(** C2, as stated, fails: called first thing, [SmtcGetPlaybackStatus] does
    not hand back a negative code with the error string set to
    ["Not initialized"]. *)
Lemma getter_before_initialize_reports_nothing :
  ~ (exists rc s',
       exec CGetPlaybackStatus idle_state = Returned (VInt rc) s' /\
       rc < 0 /\ g_lastError s' = "Not initialized").
Proof.
  intros (rc & s' & Hexec & Hneg & Herr).
  vm_compute in Hexec. injection Hexec as <- <-.
  discriminate Herr.
Qed.

(** C2, amended.  Before [SmtcInitialize] first succeeds, after any
    sequence of calls: the two getters answer 0 ([Closed], [false]) and
    touch nothing, the error string included; the two callback
    registrations store the pointer and touch nothing else; [SmtcShutdown]
    does nothing; and each of the nine guarded operations, whatever its
    outcome, makes no native call and changes nothing of the module or of
    the player object but, at most, the lock and the error string.
    (Whether the report of the guarded operations gets through is left
    open here.) *)
Theorem before_initialize s :
  pre_init s ->
  SmtcGetPlaybackStatus s = Returned SMTC_PLAYBACK_CLOSED s /\
  (forall buttonType, SmtcIsButtonEnabled buttonType s = Returned 0 s) /\
  (forall callback,
     SmtcSetButtonPressedCallback callback s
       = Returned tt (set_g_buttonCallback callback s)) /\
  (forall callback,
     SmtcSetPositionChangeRequestedCallback callback s
       = Returned tt (set_g_positionCallback callback s)) /\
  SmtcShutdown s = Returned tt s /\
  (forall c, guarded c = true ->
     same_but_lock_and_error s (final (exec c s))).
Proof.
  intros Hpre. destruct (pre_init_inv s Hpre) as [Hi Hm].
  repeat split.
  - open_state s. subst. unfold_calls; flatten. reflexivity.
  - intros b. open_state s. subst. unfold_calls; flatten. reflexivity.
  - intros cb. open_state s. subst. unfold_calls; flatten. reflexivity.
  - intros cb. open_state s. subst. unfold_calls; flatten. reflexivity.
  - now apply SmtcShutdown_uninitialized.
  - intros c Hg. rewrite guarded_blocks_uninitialized by assumption.
    open_state s. subst. reflexivity.
Qed.

Lemma before_initialize_witness :
  SmtcGetPlaybackStatus idle_state = Returned SMTC_PLAYBACK_CLOSED idle_state /\
  SmtcIsButtonEnabled SMTC_BUTTON_PLAY idle_state = Returned 0 idle_state /\
  same_but_lock_and_error
    idle_state (final (exec (CSetMediaType SMTC_MEDIA_MUSIC) idle_state)).
Proof.
  destruct (before_initialize idle_state (pre_init_start [] []))
    as (Hget & Hbtn & _ & _ & _ & Hguarded).
  split; [exact Hget|]. split; [exact (Hbtn SMTC_BUTTON_PLAY)|].
  apply Hguarded. reflexivity.
Defined.

(** ** Buttons *)

Lemma button_property_unwired buttonType :
  ~ In buttonType wired_buttons -> button_property buttonType = None.
Proof.
  intros Hout. unfold button_property.
  repeat match goal with
         | |- context [if ?b =? ?k then _ else _] =>
             destruct (Z.eqb_spec b k) as [->|_];
             [exfalso; apply Hout; cbn; tauto|]
         end.
  reflexivity.
Qed.

Lemma button_property_wired buttonType :
  In buttonType wired_buttons -> button_property buttonType <> None.
Proof.
  cbn. intros [<-|[<-|[<-|[<-|[<-|[<-|[<-|[]]]]]]]]; discriminate.
Qed.

(** C8 (the code departs from it).  For a button with no [case] in the
    switches: the getter answers 0 and changes nothing, initialised or not,
    and so it does for any button while uninitialised; the setter, once
    initialised, reaches [SetError("Unknown button type")] holding the lock
    and blocks there instead of returning its error. *)
Theorem unknown_button_policy s buttonType :
  g_mutex s = false ->
  ~ In buttonType wired_buttons ->
  (initialized s = true ->
   forall enabled,
     SmtcSetButtonEnabled buttonType enabled s = Deadlock (set_g_mutex true s)) /\
  SmtcIsButtonEnabled buttonType s = Returned 0 s /\
  (g_initialized s = false ->
   forall b, SmtcIsButtonEnabled b s = Returned 0 s).
Proof.
  intros Hm Hout. apply button_property_unwired in Hout.
  open_state s. subst. repeat split.
  - intros Hi enabled. destruct ini, sm, du; try discriminate Hi.
    unfold_calls; flatten. rewrite Hout. reflexivity.
  - unfold_calls; flatten. rewrite Hout.
    destruct ini, sm; reflexivity.
  - intros Hi b. flatten_in Hi. subst. unfold_calls; flatten. reflexivity.
Qed.

Lemma unknown_button_policy_witness :
  SmtcSetButtonEnabled SMTC_BUTTON_RECORD 1 running_state
    = Deadlock (set_g_mutex true running_state) /\
  SmtcIsButtonEnabled SMTC_BUTTON_RECORD running_state
    = Returned 0 running_state.
Proof.
  assert (Hout : ~ In SMTC_BUTTON_RECORD wired_buttons).
  { cbn. intros [H|[H|[H|[H|[H|[H|[H|[]]]]]]]]; discriminate H. }
  destruct (unknown_button_policy running_state SMTC_BUTTON_RECORD
              eq_refl Hout) as (Hset & Hget & _).
  split; [exact (Hset eq_refl 1) | exact Hget].
Defined.

(** C9.  The button-pressed relay.  For an event whose native button has a
    [case] (the seven of [relayed_buttons], translated to the seven wired
    public values), a registered callback is run exactly once, with the
    translated value, and nothing else changes.  For any other native
    button, and when no callback is registered, nothing happens at all: no
    call, no error recorded. *)
Theorem ButtonPressed_relay s button :
  map to_SmtcButtonType relayed_buttons = map Some wired_buttons /\
  (forall buttonType callback,
     to_SmtcButtonType button = Some buttonType ->
     g_buttonCallback s = Some callback ->
     In button relayed_buttons /\
     ButtonPressed_handler button s
       = Returned tt (set_callback_log
                        (callback_log s ++ [(callback, buttonType)]) s)) /\
  (~ In button relayed_buttons ->
   to_SmtcButtonType button = None /\
   ButtonPressed_handler button s = Returned tt s) /\
  (g_buttonCallback s = None ->
   ButtonPressed_handler button s = Returned tt s).
Proof.
  repeat split.
  - destruct button; cbn in *; try discriminate; tauto.
  - unfold ButtonPressed_handler, bind, get. rewrite H0, H. reflexivity.
  - destruct button; cbn in *; try reflexivity; exfalso; tauto.
  - unfold ButtonPressed_handler, bind, get, ret.
    destruct (g_buttonCallback s); [|reflexivity].
    destruct button; cbn in *; try reflexivity; exfalso; tauto.
  - intros Hnone. unfold ButtonPressed_handler, bind, get.
    rewrite Hnone. reflexivity.
Qed.

Lemma ButtonPressed_relay_witness :
  ButtonPressed_handler wm.Next (set_g_buttonCallback (Some 7%nat) running_state)
    = Returned tt (set_callback_log [(7%nat, SMTC_BUTTON_NEXT)]
                     (set_g_buttonCallback (Some 7%nat) running_state)) /\
  ButtonPressed_handler wm.ChannelUp
      (set_g_buttonCallback (Some 7%nat) running_state)
    = Returned tt (set_g_buttonCallback (Some 7%nat) running_state).
Proof.
  split.
  - destruct (ButtonPressed_relay
                (set_g_buttonCallback (Some 7%nat) running_state) wm.Next)
      as (_ & H & _).
    destruct (H SMTC_BUTTON_NEXT 7%nat eq_refl eq_refl) as [_ Hrun].
    exact Hrun.
  - destruct (ButtonPressed_relay
                (set_g_buttonCallback (Some 7%nat) running_state) wm.ChannelUp)
      as (_ & _ & H & _).
    apply H. cbn. intros [E|[E|[E|[E|[E|[E|[E|[]]]]]]]]; discriminate E.
Defined.

(** ** Successful calls *)

(** One step of a run in which [calm] promises that the native layer
    raises nothing. *)
Ltac step_calm Hc :=
  match goal with
  | |- context [match raised ?r with _ => _ end] =>
      let E := fresh "E" in
      destruct (raised r) eqn:E;
      try rewrite E in Hc; cbv beta iota in Hc; [discriminate Hc|]; flatten
  end.

(** C10.  A status outside the enumeration is not rejected: once
    initialised, and unless the native call throws, [SmtcSetPlaybackStatus]
    returns 0, sets the native status to [Stopped] and leaves the error
    string alone. *)
Theorem SetPlaybackStatus_out_of_range s status :
  initialized s = true ->
  status < SMTC_PLAYBACK_CLOSED \/ SMTC_PLAYBACK_CHANGING < status ->
  calm 1 (replies s) = true ->
  exists s', SmtcSetPlaybackStatus status s = Returned 0 s' /\
             PlaybackStatus (player s') = wm.Stopped /\
             g_lastError s' = g_lastError s.
Proof.
  intros Hi Hout Hc. open_state s.
  destruct mu, ini, sm, du; try discriminate Hi.
  assert (Hto : to_MediaPlaybackStatus status = wm.Stopped).
  { unfold to_MediaPlaybackStatus, SMTC_PLAYBACK_CLOSED, SMTC_PLAYBACK_STOPPED,
      SMTC_PLAYBACK_PLAYING, SMTC_PLAYBACK_PAUSED, SMTC_PLAYBACK_CHANGING in *.
    repeat match goal with
           | |- context [if ?b =? ?k then _ else _] =>
               destruct (Z.eqb_spec b k); [lia|]
           end.
    reflexivity. }
  cbn [calm] in Hc.
  unfold_calls; flatten. step_calm Hc.
  eexists; split; [reflexivity|]. flatten. rewrite Hto. auto.
Qed.

Lemma SetPlaybackStatus_out_of_range_witness :
  exists s', SmtcSetPlaybackStatus 17 running_state = Returned 0 s' /\
             PlaybackStatus (player s') = wm.Stopped /\
             g_lastError s' = g_lastError running_state.
Proof.
  apply (SetPlaybackStatus_out_of_range running_state 17).
  - reflexivity.
  - right. reflexivity.
  - reflexivity.
Defined.



(** In range, the conversion is exact: so many milliseconds are 10000
    times as many ticks. *)
Lemma milliseconds_exact ms :
  - max_milliseconds <= ms <= max_milliseconds ->
  milliseconds ms = ms * 10000.
Proof.
  unfold max_milliseconds, milliseconds, wrap_int64. intros Hr.
  rewrite Z.mod_small by lia. lia.
Qed.

(** C7, as stated, fails: with [start] the largest signed 64-bit value, a
    successful call does not leave the minimum seek time at [start]
    milliseconds (it leaves -10000 ticks, one millisecond before zero). *)
Lemma seek_bound_wraps_at_LLONG_MAX :
  ~ (forall s',
       SmtcSetTimelineProperties 9223372036854775807 0 0 running_state
         = Returned 0 s' ->
       MinSeekTime (Timeline (player s')) = 9223372036854775807 * 10000).
Proof.
  intros H.
  specialize (H (final (SmtcSetTimelineProperties 9223372036854775807 0 0
                          running_state))).
  assert (Hrun : SmtcSetTimelineProperties 9223372036854775807 0 0
                   running_state
                 = Returned 0
                     (final (SmtcSetTimelineProperties 9223372036854775807
                               0 0 running_state)))
    by (vm_compute; reflexivity).
  apply H in Hrun. vm_compute in Hrun. discriminate Hrun.
Qed.

(** C7, amended.  Once initialised, for all [start], [end] and [position]:
    whenever [SmtcSetTimelineProperties] returns, it returns 0 and the
    timeline handed to the controls has its minimum and maximum seek times
    equal to its start and end times, each the argument converted to ticks
    in 64-bit arithmetic, whatever the position and whether or not
    [start <= position <= end]; it does return when none of its seven
    native calls throws; and for arguments of magnitude at most
    [max_milliseconds] the conversion is exact, so the bounds are exactly
    [start] and [end] milliseconds. *)
Theorem SetTimelineProperties_seek_bounds s startTimeMs endTimeMs positionMs :
  initialized s = true ->
  (forall rc s',
     SmtcSetTimelineProperties startTimeMs endTimeMs positionMs s
       = Returned rc s' ->
     rc = 0 /\
     Timeline (player s')
       = mkTimeline (milliseconds startTimeMs) (milliseconds endTimeMs)
                    (milliseconds positionMs)
                    (milliseconds startTimeMs) (milliseconds endTimeMs)) /\
  (calm 7 (replies s) = true ->
   exists s',
     SmtcSetTimelineProperties startTimeMs endTimeMs positionMs s
       = Returned 0 s') /\
  (- max_milliseconds <= startTimeMs <= max_milliseconds ->
   milliseconds startTimeMs = startTimeMs * 10000) /\
  (- max_milliseconds <= endTimeMs <= max_milliseconds ->
   milliseconds endTimeMs = endTimeMs * 10000).
Proof.
  intros Hi. split; [|split; [|split; apply milliseconds_exact]].
  - open_state s. destruct mu, ini, sm, du; try discriminate Hi.
    intros rc s'. unfold_calls; flatten. crunch.
    intros H; injection H as <- <-. split; reflexivity.
  - open_state s. destruct mu, ini, sm, du; try discriminate Hi.
    intros Hc. flatten_in Hc. cbn [calm] in Hc.
    unfold_calls; flatten.
    do 7 step_calm Hc.
    eexists; reflexivity.
Qed.

Lemma SetTimelineProperties_seek_bounds_witness :
  exists s',
    SmtcSetTimelineProperties 0 10000 5000 running_state = Returned 0 s' /\
    MinSeekTime (Timeline (player s')) = 0 * 10000 /\
    MaxSeekTime (Timeline (player s')) = 10000 * 10000.
Proof.
  destruct (SetTimelineProperties_seek_bounds running_state 0 10000 5000
              eq_refl) as (Hret & Hrun & Hstart & Hend).
  destruct (Hrun eq_refl) as [s' Hs'].
  exists s'. split; [exact Hs'|].
  destruct (Hret 0 s' Hs') as [_ Ht]. rewrite Ht. cbn [MinSeekTime MaxSeekTime].
  split.
  - apply Hstart. unfold max_milliseconds. lia.
  - apply Hend. unfold max_milliseconds. lia.
Defined.

(** C5.  Once initialised, whatever the outcome of [SmtcSetMusicInfo]: a
    field whose argument is null keeps its value, and nothing of the player
    object but the three music properties changes.  When none of the
    native calls it makes throws (one for the property bag, one per
    non-null argument), it returns 0 and each field holds the argument
    given for it, the empty string included, or its old value when the
    argument is null. *)
Theorem SetMusicInfo_fields s title artist album :
  initialized s = true ->
  let s' := final (SmtcSetMusicInfo title artist album s) in
  (title = None -> Title (music s') = Title (music s)) /\
  (artist = None -> Artist (music s') = Artist (music s)) /\
  (album = None -> AlbumTitle (music s') = AlbumTitle (music s)) /\
  player s' = upd_Music (fun _ => music s') (player s) /\
  (calm (1 + present title + present artist + present album) (replies s)
     = true ->
   exists s'',
     SmtcSetMusicInfo title artist album s = Returned 0 s'' /\
     music s'' = mkMusic (keep_or title (Title (music s)))
                         (keep_or artist (Artist (music s)))
                         (keep_or album (AlbumTitle (music s)))).
Proof.
  intros Hi. open_state s.
  destruct mu, ini, sm, du; try discriminate Hi.
  destruct pl as [cm cl en bs ps bp tl_ [ty [t0 a0 al0] th] sh].
  destruct title as [t|], artist as [a|], album as [al|];
    cbn [present Nat.add calm];
    unfold_calls; flatten; crunch;
    (split; [|split; [|split; [|split]]]);
    try (intros; discriminate); try reflexivity.
  all: try (intros Hc; discriminate Hc).
  all: try (intros _; eexists; split; reflexivity).
  all: intros Hc;
    repeat match goal with
           | E : raised ?r = Some _ |- _ => rewrite E in Hc
           | E : raised ?r = None |- _ => rewrite E in Hc
           end; discriminate Hc.
Qed.

Lemma SetMusicInfo_fields_witness :
  exists s1 s2,
    SmtcSetMusicInfo (Some "Title") (Some "Artist") (Some "Album")
                     running_state = Returned 0 s1 /\
    SmtcSetMusicInfo None (Some "") None s1 = Returned 0 s2 /\
    music s2 = mkMusic "Title" "" "Album".
Proof.
  destruct (SetMusicInfo_fields running_state
              (Some "Title") (Some "Artist") (Some "Album") eq_refl)
    as (_ & _ & _ & _ & H1).
  destruct (H1 eq_refl) as (s1 & Hs1 & Hm1).
  assert (E1 : s1 = final (SmtcSetMusicInfo (Some "Title") (Some "Artist")
                             (Some "Album") running_state))
    by (rewrite Hs1; reflexivity).
  assert (Hi1 : initialized s1 = true) by (rewrite E1; vm_compute; reflexivity).
  assert (Hc1 : calm (1 + present None + present (Some "") + present None)
                     (replies s1) = true)
    by (rewrite E1; vm_compute; reflexivity).
  destruct (SetMusicInfo_fields s1 None (Some "") None Hi1)
    as (_ & _ & _ & _ & H2).
  destruct (H2 Hc1) as (s2 & Hs2 & Hm2).
  exists s1, s2. split; [exact Hs1|]. split; [exact Hs2|].
  rewrite Hm2, Hm1. reflexivity.
Defined.

(** ** The initialised state is what the guards expect

    The statements above take [initialized s = true] for "the module is
    initialised".  Between calls that is the same as the flag being set. *)

(** No call but [SmtcInitialize] and [SmtcShutdown] touches the flag or the
    references, and every returning call releases the lock. *)
Lemma call_keeps_handles c s v s' :
  c <> CInitialize -> c <> CShutdown ->
  exec c s = Returned v s' ->
  g_mutex s' = false /\
  g_initialized s' = g_initialized s /\
  g_smtc s' = g_smtc s /\
  g_displayUpdater s' = g_displayUpdater s.
Proof.
  intros Hno1 Hno2. open_state s.
  destruct mu; [destruct c; unfold_calls; flatten; discriminate|].
  destruct c; try congruence; clear Hno1 Hno2;
    unfold_calls; flatten;
    try destruct title; try destruct artist; try destruct album;
    try destruct filePath;
    try (destruct data; [destruct (0 <? dataSize)|]);
    try destruct (button_property buttonType) as [[getter setter]|];
    destruct ini, sm, du; flatten; crunch; try blocked.
  all: intros H; injection H as _ <-; flatten; auto.
Qed.

Lemma handler_keeps_handles button s s' :
  ButtonPressed_handler button s = Returned tt s' ->
  g_mutex s' = g_mutex s /\
  g_initialized s' = g_initialized s /\
  g_smtc s' = g_smtc s /\
  g_displayUpdater s' = g_displayUpdater s.
Proof.
  open_state s. unfold ButtonPressed_handler; flatten.
  destruct bcb; [destruct (to_SmtcButtonType button)|]; flatten;
    intros H; injection H as <-; flatten; auto.
Qed.

(** Between calls the lock is free, and whenever the flag is set the
    module is [initialized] in the full sense used by the statements
    above. *)
Lemma reachable_inv s :
  reachable s ->
  g_mutex s = false /\ (g_initialized s = true -> initialized s = true).
Proof.
  induction 1 as [rs hrs | c s v s' Hr [Hm Hinv] Hexec
                          | button s s' Hr [Hm Hinv] Hrun].
  - split; [reflexivity | discriminate].
  - destruct c.
    1: { apply lift_Returned in Hexec as (rc & Hrun & _).
         pose proof (SmtcInitialize_returns _ _ _ Hrun) as (_ & Hi' & Hm').
         split; [assumption|]. intros _.
         destruct (g_initialized s) eqn:Hi.
         - rewrite SmtcInitialize_already in Hrun by assumption.
           injection Hrun as _ <-. auto.
         - now apply SmtcInitialize_establishes in Hrun. }
    1: { apply lift_Returned in Hexec as (a & Hrun & _).
         destruct (g_initialized s) eqn:Hi.
         - destruct (SmtcShutdown_initialized s Hm Hi)
             as (s2 & Hs2 & Hm2 & Hi2 & _).
           rewrite Hs2 in Hrun. injection Hrun as _ <-.
           split; [assumption|]. rewrite Hi2. discriminate.
         - rewrite SmtcShutdown_uninitialized in Hrun by assumption.
           injection Hrun as _ <-. rewrite Hi.
           split; [assumption|discriminate]. }
    all: apply call_keeps_handles in Hexec as (Hm' & Hi' & Hs' & Hd');
      try discriminate.
    all: split; [assumption|]; intros Hi.
    all: rewrite Hi' in Hi; specialize (Hinv Hi).
    all: unfold initialized in *; rewrite Hm', Hi', Hs', Hd'; rewrite Hm in Hinv;
      exact Hinv.
  - apply handler_keeps_handles in Hrun as (Hm' & Hi' & Hs' & Hd').
    split; [congruence|]. intros Hi. rewrite Hi' in Hi. specialize (Hinv Hi).
    unfold initialized in *. rewrite Hm', Hi', Hs', Hd'. exact Hinv.
Qed.

(** * Properties of the whole surface *)

(** ** What every call does and does not do *)

Ltac split_test :=
  match goal with
  | |- context [match ?o with Some _ => _ | None => _ end] =>
      is_var o; destruct o; flatten
  | |- context [if ?b then _ else _] => is_var b; destruct b; flatten
  | |- context [if ?b then _ else _] => destruct b eqn:?; flatten
  end.

Ltac run_call := repeat first [ step_native | split_test ].

Ltac finish_effects :=
  cbn [is_std];
  repeat match goal with |- _ /\ _ => split end;
  try reflexivity; try (left; reflexivity); try (right; reflexivity);
  try exact I;
  try (intros; congruence);
  try (intros rc H; injection H as <-;
       try (unfold SMTC_PLAYBACK_CLOSED; lia);
       try (match goal with
            | |- context [of_MediaPlaybackStatus ?x] =>
                destruct x; cbv; discriminate
            end);
       lia).

(** Every exported function opens with a [lock_guard]. *)
Lemma exec_locked c s :
  g_mutex s = true -> exec c s = Deadlock s.
Proof.
  intros Hm. open_state s. subst.
  destruct c; unfold_calls; unfold SmtcInitialize; flatten; reflexivity.
Qed.

(** The effects of one call entered with the lock free, by outcome. *)
Lemma call_effects c s :
  g_mutex s = false ->
  match exec c s with
  | Returned v s' =>
      g_mutex s' = false /\
      callback_log s' = callback_log s /\
      (g_lastError s' = g_lastError s \/ g_lastError s' = "") /\
      (forall rc, v = VInt rc -> 0 <= rc) /\
      (c <> CInitialize -> c <> CUpdateDisplay ->
       Shown (player s') = Shown (player s))
  | Thrown e s' =>
      g_mutex s' = false /\
      callback_log s' = callback_log s /\
      g_lastError s' = g_lastError s /\
      is_std e /\
      (c <> CInitialize -> c <> CUpdateDisplay ->
       Shown (player s') = Shown (player s))
  | Deadlock s' =>
      g_mutex s' = true /\
      callback_log s' = callback_log s /\
      g_lastError s' = g_lastError s /\
      (c <> CInitialize -> c <> CUpdateDisplay ->
       Shown (player s') = Shown (player s))
  end.
Proof.
  intros Hm. open_state s. subst.
  destruct c; unfold_calls; unfold SmtcInitialize, initialize_controls; flatten;
    try destruct (button_property buttonType) as [[getter setter]|]; flatten.
  all: run_call.
  all: finish_effects.
Qed.

Lemma handler_effects button s :
  exists s', ButtonPressed_handler button s = Returned tt s' /\
             g_mutex s' = g_mutex s /\ g_lastError s' = g_lastError s /\
             player s' = player s.
Proof.
  open_state s. unfold ButtonPressed_handler; flatten.
  destruct bcb; [destruct (to_SmtcButtonType button)|]; flatten;
    eexists; (split; [reflexivity|]); flatten; auto.
Qed.

(** X1.  No exported function ever hands a negative code back: each
    [return -1], [return -2] and [return -3] of the file comes after a call
    of [SetError] made under the lock, and that call does not return. *)
Theorem no_negative_return_code c s rc s' :
  exec c s = Returned (VInt rc) s' -> 0 <= rc.
Proof.
  intros Hexec. destruct (g_mutex s) eqn:Hm.
  - rewrite exec_locked in Hexec by assumption. discriminate Hexec.
  - pose proof (call_effects c s Hm) as H. rewrite Hexec in H.
    destruct H as (_ & _ & _ & Hrc & _). now apply Hrc.
Qed.

Lemma no_negative_return_code_witness :
  exec CInitialize idle_state = Returned (VInt 0) running_state /\ 0 <= 0.
Proof.
  assert (H : exec CInitialize idle_state = Returned (VInt 0) running_state)
    by (vm_compute; reflexivity).
  split; [exact H|].
  exact (no_negative_return_code CInitialize idle_state 0 running_state H).
Defined.

(** X2.  The error string never holds anything: in every state the module
    reaches between calls [SmtcGetLastError] answers the empty string and
    changes nothing.  ([SetError] is only ever called with the lock held,
    so its assignment is never executed; the only other writes are the two
    [clear()].) *)
Theorem last_error_always_empty s :
  reachable s -> SmtcGetLastError s = Returned "" s.
Proof.
  intros Hr.
  assert (He : g_lastError s = "").
  { induction Hr as [rs hrs | c s v s' Hr IH Hexec | button s s' Hr IH Hrun].
    - reflexivity.
    - destruct (reachable_inv s Hr) as [Hm _].
      pose proof (call_effects c s Hm) as H. rewrite Hexec in H.
      destruct H as (_ & _ & [H|H] & _); congruence.
    - destruct (handler_effects button s) as (s2 & Hs2 & _ & He & _).
      rewrite Hs2 in Hrun. injection Hrun as <-. congruence. }
  destruct (reachable_inv s Hr) as [Hm _].
  open_state s. subst. unfold_calls; flatten. reflexivity.
Qed.

Lemma last_error_always_empty_witness :
  SmtcGetLastError running_state = Returned "" running_state.
Proof.
  apply last_error_always_empty.
  apply (reachable_call CInitialize idle_state (VInt 0)).
  - apply reachable_start.
  - vm_compute. reflexivity.
Defined.

(** X3.  The lock is released on every way out of an exported function,
    an exception leaving it included, and stays held only by a call that
    blocked; a call entered while the lock is held blocks at once and
    changes nothing. *)
Theorem lock_released_on_exit c s :
  (g_mutex s = false ->
   match exec c s with
   | Returned _ s' => g_mutex s' = false
   | Thrown _ s' => g_mutex s' = false
   | Deadlock s' => g_mutex s' = true
   end) /\
  (g_mutex s = true -> exec c s = Deadlock s).
Proof.
  split.
  - intros Hm. pose proof (call_effects c s Hm) as H.
    destruct (exec c s); tauto.
  - apply exec_locked.
Qed.

Lemma lock_released_on_exit_witness :
  match exec (CSetMediaType SMTC_MEDIA_VIDEO)
             (set_replies [Throw (std_exception "bad_alloc")] running_state)
  with
  | Returned _ s' => g_mutex s' = false
  | Thrown _ s' => g_mutex s' = false
  | Deadlock s' => g_mutex s' = true
  end.
Proof.
  apply (proj1 (lock_released_on_exit (CSetMediaType SMTC_MEDIA_VIDEO)
                  (set_replies [Throw (std_exception "bad_alloc")]
                               running_state))).
  reflexivity.
Defined.

(** X4.  No exported function runs a callback: whatever the outcome of a
    call, the record of callback invocations is as before.  Callbacks run
    only from the button-pressed lambda, and the lambda never looks at
    [g_positionCallback]: what it invokes is the same whatever pointer
    [SmtcSetPositionChangeRequestedCallback] stored. *)
Theorem calls_never_invoke_callbacks c s :
  callback_log (final (exec c s)) = callback_log s /\
  (forall button callback,
     callback_log (final (ButtonPressed_handler button
                            (set_g_positionCallback callback s)))
     = callback_log (final (ButtonPressed_handler button s))).
Proof.
  split.
  - destruct (g_mutex s) eqn:Hm.
    + rewrite exec_locked by assumption. reflexivity.
    + pose proof (call_effects c s Hm) as H.
      destruct (exec c s); cbn; tauto.
  - intros button callback. open_state s.
    unfold ButtonPressed_handler; flatten.
    destruct bcb; [destruct (to_SmtcButtonType button)|]; reflexivity.
Qed.

(** ** Exceptions and the getters *)

(** X5.  The guarded operations catch [winrt::hresult_error] only.  When
    the module is initialised and the first native call of such an
    operation throws a [std::exception], the exception leaves the exported
    function: nothing is recorded, the lock is released, and the state is
    as before but for the consumed native answer. *)
Theorem std_exception_escapes c s what :
  guarded c = true ->
  initialized s = true ->
  (forall buttonType enabled,
     c = CSetButtonEnabled buttonType enabled -> In buttonType wired_buttons) ->
  hd Ok (replies s) = Throw (std_exception what) ->
  exec c s = Thrown (std_exception what) (advance s).
Proof.
  intros Hg Hi Hw Ht. open_state s.
  destruct mu, ini, sm, du; try discriminate Hi.
  destruct c; try discriminate Hg; unfold_calls; flatten;
    rewrite ?Ht; cbn [raised]; flatten; try reflexivity.
  - destruct filePath; flatten; rewrite Ht; reflexivity.
  - destruct data; [destruct (0 <? dataSize)|]; flatten; rewrite Ht;
      reflexivity.
  - pose proof (button_property_wired buttonType
                  (Hw buttonType enabled eq_refl)) as Hp.
    destruct (button_property buttonType) as [[getter setter]|];
      [|congruence].
    flatten. rewrite Ht. reflexivity.
Qed.

Lemma std_exception_escapes_witness :
  exec (CSetPlaybackStatus SMTC_PLAYBACK_PLAYING)
       (set_replies [Throw (std_exception "bad_alloc")] running_state)
  = Thrown (std_exception "bad_alloc")
           (advance (set_replies [Throw (std_exception "bad_alloc")]
                                 running_state)).
Proof.
  apply std_exception_escapes.
  - reflexivity.
  - reflexivity.
  - intros b e H. discriminate H.
  - reflexivity.
Defined.

(** X6.  [SmtcGetPlaybackStatus] cannot fail: with the lock free it always
    returns one of the five enumerators, whatever the native layer does,
    and changes nothing beyond consuming at most one native answer.  It
    answers [SMTC_PLAYBACK_CLOSED] when the module is not initialised and
    when the native getter throws anything. *)
Theorem GetPlaybackStatus_never_fails s :
  g_mutex s = false ->
  exists v s',
    SmtcGetPlaybackStatus s = Returned v s' /\
    SMTC_PLAYBACK_CLOSED <= v <= SMTC_PLAYBACK_CHANGING /\
    (s' = s \/ s' = advance s) /\
    (g_initialized s = false \/ g_smtc s = false \/
     raised (hd Ok (replies s)) <> None ->
     v = SMTC_PLAYBACK_CLOSED).
Proof.
  intros Hm. open_state s. subst.
  unfold_calls; flatten. run_call.
  all: eexists; eexists; (split; [reflexivity|]).
  all: split; [|split].
  all: try (left; reflexivity); try (right; reflexivity).
  all: try (cbv; split; discriminate).
  all: try (intros _; reflexivity).
  - destruct (PlaybackStatus pl); cbv; split; discriminate.
  - intros [H|[H|H]]; flatten_in H; congruence.
Qed.

Lemma GetPlaybackStatus_never_fails_witness :
  exists s',
    SmtcGetPlaybackStatus
      (set_replies [Throw (std_exception "bad_alloc")] running_state)
    = Returned SMTC_PLAYBACK_CLOSED s'.
Proof.
  destruct (GetPlaybackStatus_never_fails
              (set_replies [Throw (std_exception "bad_alloc")] running_state)
              eq_refl) as (v & s' & Hrun & _ & _ & Hclosed).
  exists s'. rewrite Hrun. f_equal. apply Hclosed.
  right; right. discriminate.
Defined.

(** X7.  [SmtcIsButtonEnabled] cannot fail either: with the lock free it
    always returns 0 or 1 and changes nothing beyond consuming at most one
    native answer; it answers 0 when the module is not initialised, when
    the button has no [case], and when the native getter throws anything. *)
Theorem IsButtonEnabled_never_fails s buttonType :
  g_mutex s = false ->
  exists v s',
    SmtcIsButtonEnabled buttonType s = Returned v s' /\
    (v = 0 \/ v = 1) /\
    (s' = s \/ s' = advance s) /\
    (g_initialized s = false \/ g_smtc s = false \/
     ~ In buttonType wired_buttons \/
     raised (hd Ok (replies s)) <> None ->
     v = 0).
Proof.
  intros Hm. open_state s. subst.
  unfold_calls; flatten.
  destruct (button_property buttonType) as [[getter setter]|] eqn:Hp;
    flatten; run_call.
  all: eexists; eexists; (split; [reflexivity|]).
  all: split; [|split].
  all: try (left; reflexivity); try (right; reflexivity).
  all: try (intros _; reflexivity).
  all: intros [H|[H|[H|H]]]; flatten_in H; try congruence.
  all: apply button_property_unwired in H; congruence.
Qed.

Lemma IsButtonEnabled_never_fails_witness :
  exists s',
    SmtcIsButtonEnabled SMTC_BUTTON_PLAY
      (set_replies [Throw (hresult_error "E_FAIL")] running_state)
    = Returned 0 s'.
Proof.
  destruct (IsButtonEnabled_never_fails
              (set_replies [Throw (hresult_error "E_FAIL")] running_state)
              SMTC_BUTTON_PLAY eq_refl) as (v & s' & Hrun & _ & _ & Hzero).
  exists s'. rewrite Hrun. f_equal. apply Hzero.
  right; right; right. discriminate.
Defined.

(** ** Round trips *)

Lemma status_read_back status :
  of_MediaPlaybackStatus (to_MediaPlaybackStatus status) = read_back status.
Proof.
  unfold to_MediaPlaybackStatus, read_back, SMTC_PLAYBACK_CLOSED,
    SMTC_PLAYBACK_STOPPED, SMTC_PLAYBACK_PLAYING, SMTC_PLAYBACK_PAUSED,
    SMTC_PLAYBACK_CHANGING.
  repeat match goal with
         | |- context [if ?b =? ?k then _ else _] =>
             destruct (Z.eqb_spec b k); [subst; reflexivity|]
         end.
  destruct (Z.leb_spec 0 status), (Z.leb_spec status 4); cbn;
    try reflexivity; lia.
Qed.

(** X8.  Set then get of the playback status.  Once initialised, when the
    two native calls do not throw, [SmtcGetPlaybackStatus] after
    [SmtcSetPlaybackStatus status] answers [status] for each of the five
    enumerators, and [SMTC_PLAYBACK_STOPPED] for any other value. *)
Theorem SetPlaybackStatus_round_trip s status :
  initialized s = true ->
  calm 2 (replies s) = true ->
  exists s1 s2,
    SmtcSetPlaybackStatus status s = Returned 0 s1 /\
    SmtcGetPlaybackStatus s1 = Returned (read_back status) s2.
Proof.
  intros Hi Hc. open_state s.
  destruct mu, ini, sm, du; try discriminate Hi.
  cbn [calm] in Hc.
  destruct (raised (hd Ok rs)) eqn:E1; [discriminate Hc|].
  destruct (raised (hd Ok (tl rs))) eqn:E2; [discriminate Hc|].
  eexists; eexists. split.
  - unfold_calls; flatten. rewrite E1. reflexivity.
  - unfold_calls; flatten. rewrite E2.
    cbn [PlaybackStatus with_PlaybackStatus]. rewrite status_read_back.
    reflexivity.
Qed.

Lemma SetPlaybackStatus_round_trip_witness :
  exists s1 s2,
    SmtcSetPlaybackStatus SMTC_PLAYBACK_PAUSED running_state = Returned 0 s1 /\
    SmtcGetPlaybackStatus s1 = Returned SMTC_PLAYBACK_PAUSED s2.
Proof.
  exact (SetPlaybackStatus_round_trip running_state SMTC_PLAYBACK_PAUSED
           eq_refl eq_refl).
Defined.

(** X9.  Set then get of a button.  Once initialised, for each of the
    seven wired buttons, when the two native calls do not throw:
    [SmtcIsButtonEnabled] after [SmtcSetButtonEnabled button enabled]
    answers 1 when [enabled] is any non-zero value and 0 when it is 0, and
    the flag of every other button is as before. *)
Theorem SetButtonEnabled_round_trip s buttonType enabled :
  initialized s = true ->
  In buttonType wired_buttons ->
  calm 2 (replies s) = true ->
  exists s1 s2,
    SmtcSetButtonEnabled buttonType enabled s = Returned 0 s1 /\
    SmtcIsButtonEnabled buttonType s1
      = Returned (int_of_bool (negb (enabled =? 0))) s2 /\
    (forall other getter setter,
       button_property other = Some (getter, setter) ->
       other <> buttonType ->
       getter (buttons (player s1)) = getter (buttons (player s))).
Proof.
  intros Hi Hin Hc. open_state s.
  destruct mu, ini, sm, du; try discriminate Hi.
  cbn [calm] in Hc.
  destruct (raised (hd Ok rs)) eqn:E1; [discriminate Hc|].
  destruct (raised (hd Ok (tl rs))) eqn:E2; [discriminate Hc|].
  cbn in Hin.
  destruct Hin as [<-|[<-|[<-|[<-|[<-|[<-|[<-|[]]]]]]]].
  all: eexists; eexists; split; [|split].
  all: try (unfold_calls;
            cbv beta iota delta
              [button_property Z.eqb Pos.eqb SMTC_BUTTON_PLAY
               SMTC_BUTTON_PAUSE SMTC_BUTTON_STOP SMTC_BUTTON_NEXT
               SMTC_BUTTON_PREVIOUS SMTC_BUTTON_FAST_FORWARD
               SMTC_BUTTON_REWIND];
            flatten; rewrite ?E1, ?E2; flatten;
            try destruct (enabled =? 0); reflexivity).
  all: intros other getter setter Hp Hne; unfold button_property in Hp;
    repeat match type of Hp with
           | context [if ?b =? ?k then _ else _] =>
               destruct (Z.eqb_spec b k);
               [try congruence; injection Hp as <- <-; reflexivity|]
           end;
    discriminate Hp.
Qed.

Lemma SetButtonEnabled_round_trip_witness :
  exists s1 s2,
    SmtcSetButtonEnabled SMTC_BUTTON_PLAY 0 running_state = Returned 0 s1 /\
    SmtcIsButtonEnabled SMTC_BUTTON_PLAY s1 = Returned 0 s2.
Proof.
  assert (Hin : In SMTC_BUTTON_PLAY wired_buttons) by (left; reflexivity).
  destruct (SetButtonEnabled_round_trip running_state SMTC_BUTTON_PLAY 0
              eq_refl Hin eq_refl) as (s1 & s2 & H1 & H2 & _).
  exists s1, s2. split; [exact H1 | exact H2].
Defined.

(** ** Staging and committing the display *)

(** X10.  A media type outside the enumeration is not rejected.  Once
    initialised, when the native setter does not throw, [SmtcSetMediaType]
    returns 0 and stages [Music], [Video] or [Image] for the values 1, 2
    and 3, and [Unknown] for every other value; the music properties and
    the thumbnail stay as they were. *)
Theorem SetMediaType_mapping s mediaType :
  initialized s = true ->
  calm 1 (replies s) = true ->
  exists s',
    SmtcSetMediaType mediaType s = Returned 0 s' /\
    (mediaType = SMTC_MEDIA_MUSIC -> Type_ (Display (player s')) = wm.Music) /\
    (mediaType = SMTC_MEDIA_VIDEO -> Type_ (Display (player s')) = wm.Video) /\
    (mediaType = SMTC_MEDIA_IMAGE -> Type_ (Display (player s')) = wm.Image) /\
    (mediaType < SMTC_MEDIA_MUSIC \/ SMTC_MEDIA_IMAGE < mediaType ->
     Type_ (Display (player s')) = wm.Unknown) /\
    music s' = music s /\
    Thumbnail (Display (player s')) = Thumbnail (Display (player s)).
Proof.
  intros Hi Hc. open_state s.
  destruct mu, ini, sm, du; try discriminate Hi.
  cbn [calm] in Hc.
  destruct (raised (hd Ok rs)) eqn:E1; [discriminate Hc|].
  eexists. split.
  { unfold_calls; flatten. rewrite E1. reflexivity. }
  cbn. unfold to_MediaPlaybackType, SMTC_MEDIA_MUSIC, SMTC_MEDIA_VIDEO,
    SMTC_MEDIA_IMAGE.
  repeat split.
  - intros ->. reflexivity.
  - intros ->. reflexivity.
  - intros ->. reflexivity.
  - intros Hout.
    repeat match goal with
           | |- context [if ?b =? ?k then _ else _] =>
               destruct (Z.eqb_spec b k); [lia|]
           end.
    reflexivity.
Qed.

Lemma SetMediaType_mapping_witness :
  exists s',
    SmtcSetMediaType 99 running_state = Returned 0 s' /\
    Type_ (Display (player s')) = wm.Unknown.
Proof.
  destruct (SetMediaType_mapping running_state 99 eq_refl eq_refl)
    as (s' & Hrun & _ & _ & _ & Hout & _).
  exists s'. split; [exact Hrun|]. apply Hout. right. reflexivity.
Defined.

(** X11.  What the thumbnail setters stage.  Once initialised, when the
    native calls do not throw: [SmtcSetThumbnailFromFile] with a path
    stages a reference to that URI; [SmtcSetThumbnailFromMemory] with a
    buffer of at least [dataSize > 0] bytes stages a stream holding exactly
    the first [dataSize] bytes, the same whatever [mimeType] is.  Both
    return 0 and leave the music properties alone. *)
Theorem thumbnail_staging s :
  initialized s = true ->
  (forall path,
     calm 3 (replies s) = true ->
     exists s',
       SmtcSetThumbnailFromFile (Some path) s = Returned 0 s' /\
       Thumbnail (Display (player s')) = Some (FromUri path) /\
       music s' = music s) /\
  (forall buffer dataSize mimeType,
     0 < dataSize <= Z.of_nat (List.length buffer) ->
     calm 8 (replies s) = true ->
     exists s',
       SmtcSetThumbnailFromMemory (Some buffer) dataSize mimeType s
         = Returned 0 s' /\
       Thumbnail (Display (player s'))
         = Some (FromStream (firstn (Z.to_nat dataSize) buffer)) /\
       List.length (firstn (Z.to_nat dataSize) buffer) = Z.to_nat dataSize /\
       music s' = music s).
Proof.
  intros Hi. open_state s.
  destruct mu, ini, sm, du; try discriminate Hi.
  split.
  - intros path Hc. flatten_in Hc. cbn [calm] in Hc.
    unfold_calls; flatten. do 3 step_calm Hc.
    eexists. split; [reflexivity|]. split; reflexivity.
  - intros buffer dataSize mimeType Hsize Hc. flatten_in Hc. cbn [calm] in Hc.
    unfold_calls; flatten.
    destruct (Z.ltb_spec 0 dataSize) as [_|Hle]; [|lia]. flatten.
    do 8 step_calm Hc.
    eexists. split; [reflexivity|]. split; [reflexivity|]. split.
    + apply firstn_length_le. lia.
    + reflexivity.
Qed.

Lemma thumbnail_staging_witness :
  exists s',
    SmtcSetThumbnailFromMemory (Some [x89; x50; x4e; x47]) 2
                               (Some "text/plain") running_state
      = Returned 0 s' /\
    Thumbnail (Display (player s')) = Some (FromStream [x89; x50]).
Proof.
  destruct (thumbnail_staging running_state eq_refl) as [_ H].
  destruct (H [x89; x50; x4e; x47] 2 (Some "text/plain"))
    as (s' & Hrun & Hth & _).
  - cbn. lia.
  - reflexivity.
  - exists s'. split; [exact Hrun | exact Hth].
Defined.

(** X12.  Stage, then commit.  What the display last received changes
    only through [SmtcUpdateDisplay] (and through [SmtcInitialize], which
    makes a new player): after any other call, whatever its outcome, it is
    as before.  Once initialised, when the native call does not throw,
    [SmtcUpdateDisplay] returns 0 and hands the display exactly what is
    staged, which stays staged. *)
Theorem display_commit s :
  (forall c,
     c <> CInitialize -> c <> CUpdateDisplay ->
     Shown (player (final (exec c s))) = Shown (player s)) /\
  (initialized s = true ->
   calm 1 (replies s) = true ->
   exists s',
     SmtcUpdateDisplay s = Returned 0 s' /\
     Shown (player s') = Display (player s) /\
     Display (player s') = Display (player s)).
Proof.
  split.
  - intros c Hc1 Hc2. destruct (g_mutex s) eqn:Hm.
    + rewrite exec_locked by assumption. reflexivity.
    + pose proof (call_effects c s Hm) as H.
      destruct (exec c s); cbn; intuition.
  - intros Hi Hc. open_state s.
    destruct mu, ini, sm, du; try discriminate Hi.
    cbn [calm] in Hc.
    destruct (raised (hd Ok rs)) eqn:E1; [discriminate Hc|].
    eexists. split.
    { unfold_calls; flatten. rewrite E1. reflexivity. }
    split; reflexivity.
Qed.

Lemma display_commit_witness :
  exists s1 s2,
    SmtcSetMusicInfo (Some "Title") None None running_state = Returned 0 s1 /\
    Shown (player s1) = Shown (player running_state) /\
    SmtcUpdateDisplay s1 = Returned 0 s2 /\
    Title (MusicProperties (Shown (player s2))) = "Title".
Proof.
  set (s1 := final (SmtcSetMusicInfo (Some "Title") None None running_state)).
  destruct (display_commit running_state) as [Hkeep _].
  destruct (display_commit s1) as [_ Hflush].
  destruct (Hflush eq_refl eq_refl) as (s2 & Hrun & Hshown & _).
  exists s1, s2. split; [vm_compute; reflexivity|]. split.
  - apply (Hkeep (CSetMusicInfo (Some "Title") None None)); discriminate.
  - split; [exact Hrun|]. rewrite Hshown. reflexivity.
Defined.

(** ** Life cycle *)

(** What a set-up that ran to its end leaves behind. *)
Lemma SmtcInitialize_post s rc s1 :
  g_initialized s = false ->
  SmtcInitialize s = Returned rc s1 ->
  buttons (player s1)
    = with_IsStopEnabled false
        (with_IsPreviousEnabled true
           (with_IsNextEnabled true
              (with_IsPauseEnabled true
                 (with_IsPlayEnabled true (buttons fresh_player))))) /\
  Type_ (Display (player s1)) = wm.Music /\
  IsEnabled (player s1) = true /\
  CommandManager_IsEnabled (player s1) = false /\
  In (g_buttonPressedToken s1) (ButtonPressed (player s1)) /\
  g_mediaPlayer s1 = true /\
  g_lastError s1 = "" /\
  g_buttonCallback s1 = g_buttonCallback s /\
  g_positionCallback s1 = g_positionCallback s /\
  g_comInitialized s1 = SUCCEEDED (hd S_OK (hresults s)) /\
  com_count s1
    = com_count s + (if SUCCEEDED (hd S_OK (hresults s)) then 1 else 0).
Proof.
  intros Hi. open_state s. subst.
  unfold SmtcInitialize, initialize_controls; flatten.
  destruct mu; [discriminate|].
  destruct (SUCCEEDED (hd S_OK hrs)) eqn:Hs; flatten;
    [| destruct (hd S_OK hrs =? RPC_E_CHANGED_MODE); flatten;
       [| destruct (Z.eqb_spec (hd S_OK hrs) S_FALSE) as [Hf|_]; flatten;
          [rewrite Hf in Hs; discriminate Hs | blocked] ] ].
  all: crunch.
  all: intros H; injection H as _ <-; flatten.
  all: repeat match goal with |- _ /\ _ => split end.
  all: try match goal with |- @eq Z _ _ => lia end.
  all: try (vm_compute; reflexivity).
  all: vm_compute; left; reflexivity.
Qed.

Lemma SmtcShutdown_post s s2 :
  g_mutex s = false -> g_initialized s = true ->
  SmtcShutdown s = Returned tt s2 ->
  g_smtc s2 = false /\
  g_displayUpdater s2 = false /\
  (g_mediaPlayer s2 = true <->
   g_mediaPlayer s = true /\ raised (close_reply s) <> None) /\
  g_comInitialized s2 = false /\
  com_count s2 = com_count s - (if g_comInitialized s then 1 else 0) /\
  g_buttonCallback s2 = None.
Proof.
  intros Hm Hi. open_state s. subst.
  unfold SmtcShutdown, close_reply; flatten.
  destruct sm, mp, com; flatten; crunch.
  all: intros H; injection H as <-; flatten.
  all: repeat match goal with |- _ /\ _ => split end.
  all: try reflexivity.
  all: try match goal with |- @eq Z _ _ => lia end.
  all: match goal with
       | |- _ <-> _ =>
           split;
           [ intros H;
             first [ discriminate H | split; [reflexivity|discriminate] ]
           | intros [H1 H2];
             first [ reflexivity | discriminate H1
                   | exfalso; apply H2; reflexivity ] ]
       end.
Qed.

(** X13.  The state a successful first [SmtcInitialize] leaves: play,
    pause, next and previous enabled and stop disabled on a new player,
    the display type [Music], the controls enabled, the player's own
    command handling off, the button-pressed lambda registered under the
    remembered token, and the error string empty.  Callback pointers stored
    before the call are kept. *)
Theorem SmtcInitialize_sets_up s rc s1 :
  g_initialized s = false ->
  SmtcInitialize s = Returned rc s1 ->
  IsPlayEnabled (buttons (player s1)) = true /\
  IsPauseEnabled (buttons (player s1)) = true /\
  IsNextEnabled (buttons (player s1)) = true /\
  IsPreviousEnabled (buttons (player s1)) = true /\
  IsStopEnabled (buttons (player s1)) = false /\
  Type_ (Display (player s1)) = wm.Music /\
  IsEnabled (player s1) = true /\
  CommandManager_IsEnabled (player s1) = false /\
  In (g_buttonPressedToken s1) (ButtonPressed (player s1)) /\
  g_lastError s1 = "" /\
  g_buttonCallback s1 = g_buttonCallback s /\
  g_positionCallback s1 = g_positionCallback s.
Proof.
  intros Hi Hrun.
  destruct (SmtcInitialize_post s rc s1 Hi Hrun)
    as (Hb & Hty & Hen & Hcm & Htok & _ & Herr & Hbc & Hpc & _).
  rewrite Hb. repeat split; auto.
Qed.

Lemma SmtcInitialize_sets_up_witness :
  IsPlayEnabled (buttons (player running_state)) = true /\
  IsStopEnabled (buttons (player running_state)) = false.
Proof.
  destruct (SmtcInitialize_sets_up idle_state 0 running_state eq_refl)
    as (H1 & _ & _ & _ & H5 & _).
  - vm_compute. reflexivity.
  - split; [exact H1 | exact H5].
Defined.

(** X14.  COM is balanced.  After a successful [SmtcInitialize] the module
    remembers having initialised COM exactly when [CoInitializeEx]
    succeeded ([S_OK] or [S_FALSE]; [RPC_E_CHANGED_MODE] is tolerated and
    not remembered), and the following [SmtcShutdown] calls
    [CoUninitialize] exactly in that case: after the pair, the number of
    outstanding COM initialisations is the one before it. *)
Theorem COM_balanced s rc s1 s2 :
  g_initialized s = false ->
  SmtcInitialize s = Returned rc s1 ->
  SmtcShutdown s1 = Returned tt s2 ->
  g_comInitialized s1 = SUCCEEDED (hd S_OK (hresults s)) /\
  com_count s2 = com_count s /\
  g_comInitialized s2 = false.
Proof.
  intros Hi Hinit Hshut.
  destruct (SmtcInitialize_post s rc s1 Hi Hinit)
    as (_ & _ & _ & _ & _ & _ & _ & _ & _ & Hcom & Hcount).
  apply SmtcInitialize_returns in Hinit as (_ & Hi1 & Hm1).
  destruct (SmtcShutdown_post s1 s2 Hm1 Hi1 Hshut)
    as (_ & _ & _ & Hcom2 & Hcount2 & _).
  repeat split; try assumption.
  rewrite Hcount2, Hcount, Hcom.
  destruct (SUCCEEDED (hd S_OK (hresults s))); lia.
Qed.

Lemma COM_balanced_witness :
  com_count (final (SmtcShutdown running_state)) = com_count idle_state.
Proof.
  destruct (COM_balanced idle_state 0 running_state
              (final (SmtcShutdown running_state)) eq_refl)
    as (_ & H & _).
  - vm_compute. reflexivity.
  - vm_compute. reflexivity.
  - exact H.
Defined.

(** X15.  What [SmtcShutdown] releases.  From an initialised state it
    always nulls [g_smtc] and [g_displayUpdater]; [g_mediaPlayer] is
    nulled too unless [Close()] throws, in which case the assignment after
    it is skipped and the reference stays, although the module now counts
    as uninitialised. *)
Theorem SmtcShutdown_releases s s2 :
  g_mutex s = false -> g_initialized s = true ->
  SmtcShutdown s = Returned tt s2 ->
  g_smtc s2 = false /\
  g_displayUpdater s2 = false /\
  g_initialized s2 = false /\
  (g_mediaPlayer s2 = true <->
   g_mediaPlayer s = true /\ raised (close_reply s) <> None).
Proof.
  intros Hm Hi Hrun.
  destruct (SmtcShutdown_post s s2 Hm Hi Hrun) as (H1 & H2 & H3 & _).
  destruct (SmtcShutdown_initialized s Hm Hi) as (s2' & Hrun' & _ & Hi2 & _).
  rewrite Hrun in Hrun'. injection Hrun' as <-.
  auto.
Qed.

Lemma SmtcShutdown_releases_witness :
  g_mediaPlayer
    (final (SmtcShutdown
              (set_replies [Ok; Ok; Throw (hresult_error "E_FAIL")]
                           running_state))) = true /\
  g_mediaPlayer (final (SmtcShutdown running_state)) = false.
Proof.
  split.
  - assert (Hrun : SmtcShutdown
                     (set_replies [Ok; Ok; Throw (hresult_error "E_FAIL")]
                                  running_state)
                   = Returned tt
                       (final (SmtcShutdown
                                 (set_replies
                                    [Ok; Ok; Throw (hresult_error "E_FAIL")]
                                    running_state))))
      by (vm_compute; reflexivity).
    destruct (SmtcShutdown_releases
                (set_replies [Ok; Ok; Throw (hresult_error "E_FAIL")]
                             running_state) _ eq_refl eq_refl Hrun)
      as (_ & _ & _ & _ & Hback).
    apply Hback. split; [reflexivity|]. vm_compute. discriminate.
  - assert (Hrun : SmtcShutdown running_state
                   = Returned tt (final (SmtcShutdown running_state)))
      by (vm_compute; reflexivity).
    destruct (SmtcShutdown_releases running_state _ eq_refl eq_refl Hrun)
      as (_ & _ & _ & Hforth & _).
    destruct (g_mediaPlayer (final (SmtcShutdown running_state)));
      [|reflexivity].
    destruct (Hforth eq_refl) as [_ Hthrow].
    exfalso. apply Hthrow. vm_compute. reflexivity.
Defined.

(** ** Callbacks *)

(** X16.  Registration is last-write-wins and works in any state.  After
    two registrations in a row, a button event reaches the second pointer
    only: it is run once when it is non-null and the button has a [case],
    and nothing is run otherwise (a null pointer deregisters). *)
Theorem callback_last_write_wins s first second button :
  g_mutex s = false ->
  (SmtcSetButtonPressedCallback first ;;
   SmtcSetButtonPressedCallback second ;;
   ButtonPressed_handler button) s
  = match second, to_SmtcButtonType button with
    | Some callback, Some buttonType =>
        Returned tt (set_callback_log
                       (callback_log s ++ [(callback, buttonType)])
                       (set_g_buttonCallback second s))
    | _, _ => Returned tt (set_g_buttonCallback second s)
    end.
Proof.
  intros Hm. open_state s. subst.
  unfold_calls. unfold ButtonPressed_handler; flatten.
  destruct second; [destruct (to_SmtcButtonType button)|]; reflexivity.
Qed.

Lemma callback_last_write_wins_witness :
  callback_log
    (final ((SmtcSetButtonPressedCallback (Some 1%nat) ;;
             SmtcSetButtonPressedCallback (Some 2%nat) ;;
             ButtonPressed_handler wm.Pause) running_state))
  = [(2%nat, SMTC_BUTTON_PAUSE)].
Proof.
  rewrite (callback_last_write_wins running_state (Some 1%nat) (Some 2%nat)
             wm.Pause eq_refl).
  reflexivity.
Defined.

(** X17.  A restart drops the registration.  [SmtcShutdown] clears the
    callback slot and [SmtcInitialize] does not restore it: after
    [SmtcShutdown] and a successful [SmtcInitialize], a button event runs
    nothing, whatever was registered before, until a callback is set
    again. *)
Theorem callback_dropped_by_restart s s2 rc s3 button :
  g_mutex s = false -> g_initialized s = true ->
  SmtcShutdown s = Returned tt s2 ->
  SmtcInitialize s2 = Returned rc s3 ->
  g_buttonCallback s3 = None /\
  ButtonPressed_handler button s3 = Returned tt s3.
Proof.
  intros Hm Hi Hshut Hinit.
  destruct (SmtcShutdown_initialized s Hm Hi)
    as (s2' & Hrun' & _ & Hi2 & Hb2 & _).
  rewrite Hshut in Hrun'. injection Hrun' as <-.
  destruct (SmtcInitialize_post s2 rc s3 Hi2 Hinit)
    as (_ & _ & _ & _ & _ & _ & _ & Hbc & _).
  rewrite Hb2 in Hbc. split; [exact Hbc|].
  unfold ButtonPressed_handler, bind, get. rewrite Hbc. reflexivity.
Qed.

Lemma callback_dropped_by_restart_witness :
  callback_log
    (final (ButtonPressed_handler wm.Play
              (final (SmtcInitialize
                        (final (SmtcShutdown
                                  (set_g_buttonCallback (Some 7%nat)
                                                        running_state)))))))
  = [].
Proof.
  set (s := set_g_buttonCallback (Some 7%nat) running_state).
  set (s2 := final (SmtcShutdown s)).
  set (s3 := final (SmtcInitialize s2)).
  destruct (callback_dropped_by_restart s s2 0 s3 wm.Play eq_refl eq_refl)
    as [_ H].
  - vm_compute. reflexivity.
  - vm_compute. reflexivity.
  - rewrite H. vm_compute. reflexivity.
Defined.

(** ** The guards *)

(** X18.  Between calls the reference tests of the guards never decide
    anything: whenever [g_initialized] is set, [g_smtc] and
    [g_displayUpdater] are non-null, so [!g_initialized || !g_displayUpdater]
    and [!g_initialized || !g_smtc] are just [!g_initialized]; and the lock
    is free. *)
Theorem guard_reference_tests_redundant s :
  reachable s ->
  g_mutex s = false /\
  negb (g_initialized s) || negb (g_displayUpdater s) = negb (g_initialized s) /\
  negb (g_initialized s) || negb (g_smtc s) = negb (g_initialized s).
Proof.
  intros Hr. destruct (reachable_inv s Hr) as [Hm Hinv].
  split; [assumption|].
  destruct (g_initialized s) eqn:Hi; [|split; reflexivity].
  specialize (Hinv eq_refl). unfold initialized in Hinv.
  rewrite Hm, Hi in Hinv. cbn in Hinv.
  apply andb_prop in Hinv as [Hs Hd]. rewrite Hs, Hd. split; reflexivity.
Qed.

Lemma guard_reference_tests_redundant_witness :
  negb (g_initialized running_state) || negb (g_smtc running_state)
  = negb (g_initialized running_state).
Proof.
  apply (guard_reference_tests_redundant running_state).
  apply (reachable_call CInitialize idle_state (VInt 0)).
  - apply reachable_start.
  - vm_compute. reflexivity.
Defined.

(** X19.  Over the whole life of the module a callback only ever receives
    one of the seven wired button values: every invocation on record, in
    every state the module reaches, carries a value of [wired_buttons]
    (never [SMTC_BUTTON_RECORD], [SMTC_BUTTON_CHANNEL_UP] or
    [SMTC_BUTTON_CHANNEL_DOWN]). *)
Theorem callbacks_receive_wired_buttons s :
  reachable s ->
  Forall (fun invocation => In (snd invocation) wired_buttons)
         (callback_log s).
Proof.
  induction 1 as [rs hrs | c s v s' Hr IH Hexec | button s s' Hr IH Hrun].
  - constructor.
  - destruct (reachable_inv s Hr) as [Hm _].
    pose proof (call_effects c s Hm) as H. rewrite Hexec in H.
    destruct H as (_ & Hlog & _). rewrite Hlog. exact IH.
  - revert Hrun. open_state s. unfold ButtonPressed_handler; flatten.
    destruct bcb as [callback|];
      [destruct (to_SmtcButtonType button) as [buttonType|] eqn:Hto|];
      flatten; intros Hrun; injection Hrun as <-; flatten; try exact IH.
    flatten_in IH. apply Forall_app. split; [exact IH|].
    constructor; [|constructor]. cbn [snd].
    destruct button; cbn in Hto; try discriminate Hto;
      injection Hto as <-; cbn; tauto.
Qed.

Lemma callbacks_receive_wired_buttons_witness :
  Forall (fun invocation => In (snd invocation) wired_buttons)
         (callback_log
            (final (ButtonPressed_handler wm.Rewind
                      (set_g_buttonCallback (Some 7%nat) idle_state)))).
Proof.
  apply callbacks_receive_wired_buttons.
  apply (reachable_event wm.Rewind
           (set_g_buttonCallback (Some 7%nat) idle_state)).
  - apply (reachable_call (CSetButtonPressedCallback (Some 7%nat))
             idle_state VVoid).
    + apply reachable_start.
    + vm_compute. reflexivity.
  - vm_compute. reflexivity.
Defined.
